(** * HistoricalTemps: a shallow embedding of [HistoricalTemps.py]

    The program keeps, for a zip code and a date range, a cached list of
    (date, daily maximum temperature) pairs fetched from a weather archive,
    and answers three queries over it.  The embedding follows the source
    method by method.  The two collaborators that are not part of the
    program, the archive endpoint and the geocoder, are parameters. *)

From Stdlib Require Import ZArith List String Ascii Bool Lia Permutation Sorted.
From Stdlib Require Import Floats Uint63.
Import ListNotations.
Open Scope string_scope.

Set Implicit Arguments.
Set Warnings "-register-all".

(** ** Python numbers

    Temperatures, coordinates and averages are Python numbers ([int] or
    [float]).  The methods use only the operations below, so the embedding is
    written against this interface; [float_num] instantiates it with IEEE
    binary64, which is what [float] is. *)

Class PyNum (num : Type) := {
  num_zero : num;                    (* the literal [0] a running total starts from *)
  num_add : num -> num -> num;       (* [a + b] *)
  num_of_len : nat -> num;           (* the value of [len(...)] *)
  num_truediv : num -> num -> num;   (* [a / b], for [b] other than zero *)
  num_lt : num -> num -> bool;       (* [a < b]; [a > b] is [b < a] *)
  num_isnan : num -> bool;           (* [math.isnan] *)
  num_nan : num;                     (* the not-a-number value *)
  num_of_bool : bool -> num          (* [True] is 1 and [False] is 0 *)
}.

#[export] Instance float_num : PyNum float := {
  num_zero := 0%float;
  num_add := PrimFloat.add;
  num_of_len := fun n => PrimFloat.of_uint63 (Uint63.of_Z (Z.of_nat n));
  num_truediv := PrimFloat.div;
  num_lt := PrimFloat.ltb;
  num_isnan := PrimFloat.is_nan;
  num_nan := PrimFloat.nan;
  num_of_bool := fun b => if b then 1%float else 0%float
}.

(** ** Exceptions and results *)

(** The exception classes the modelled code can raise.  [RequestException]
    stands for whatever [requests.get] raises when the transport fails. *)
Inductive exn : Type :=
| LookupError
| KeyError
| JSONDecodeError
| TypeError
| UnboundLocalError
| ZeroDivisionError
| RequestException.

(** [isinstance(e, LookupError)]: [KeyError] is a subclass of [LookupError]. *)
Definition is_LookupError (e : exn) : bool :=
  match e with
  | LookupError | KeyError => true
  | _ => false
  end.

(** The spec's error kinds, read on the exception classes of the code. *)
Definition LookupFailure (e : exn) : bool := is_LookupError e.

Definition DataFormatFailure (e : exn) : bool :=
  match e with
  | JSONDecodeError | KeyError | TypeError | UnboundLocalError => true
  | _ => false
  end.

Definition TransportFailure (e : exn) : bool :=
  match e with
  | RequestException => true
  | _ => false
  end.

Inductive result (A : Type) : Type :=
| Ok (a : A)
| Raise (e : exn).

Arguments Ok {A} a.
Arguments Raise {A} e.

Definition rbind {A B : Type} (r : result A) (k : A -> result B) : result B :=
  match r with
  | Ok a => k a
  | Raise e => Raise e
  end.

Declare Scope py_scope.
Delimit Scope py_scope with py.
Notation "x <- r ;; k" := (rbind r (fun x => k))
  (at level 61, r at next level, right associativity) : py_scope.

(** ** Decoded JSON

    What [json.loads] hands back.  Arrays hold scalars: the archive's arrays
    carry strings, numbers and nulls. *)
Section Values.

Context {num : Type} `{PyNum num}.

Inductive scalar : Type :=
| SNull
| SBool (b : bool)
| SNum (x : num)
| SStr (s : string).

Inductive json : Type :=
| JLeaf (v : scalar)
| JArr (items : list scalar)
| JObj (members : list (string * json)).

(** The response body as [json.loads] sees it: text it rejects, or text it
    decodes to a value. *)
Inductive body : Type :=
| Malformed
| Decodes (j : json).

Definition json_loads (data : body) : result json :=
  match data with
  | Malformed => Raise JSONDecodeError
  | Decodes j => Ok j
  end.

(** [d.get]-style first match in a dict's items; keys of a dict are unique. *)
Fixpoint assoc (k : string) (members : list (string * json)) : option json :=
  match members with
  | [] => None
  | (k', v) :: rest => if String.eqb k k' then Some v else assoc k rest
  end.

(** [v[key]] for a string key. *)
Definition getitem (v : json) (key : string) : result json :=
  match v with
  | JObj members =>
      match assoc key members with
      | Some j => Ok j
      | None => Raise KeyError
      end
  | _ => Raise TypeError
  end.

Definition chars (s : string) : list scalar :=
  map (fun c => SStr (String c EmptyString)) (list_ascii_of_string s).

(** [iter(v)]: the items a [for] loop or [zip] sees.  A dict yields its keys,
    a list its elements, a string its characters; nothing else iterates. *)
Definition iterate (v : json) : result (list scalar) :=
  match v with
  | JObj members => Ok (map (fun kv => SStr (fst kv)) members)
  | JArr items => Ok items
  | JLeaf (SStr s) => Ok (chars s)
  | JLeaf _ => Raise TypeError
  end.

(** [x == s] for a string literal [s]. *)
Definition eq_str (x : scalar) (s : string) : bool :=
  match x with
  | SStr s' => String.eqb s' s
  | _ => false
  end.

(** [v[x]] where [x] is an item the loop got from [v] and equals a string
    literal: a dict is indexed by that key, a list refuses a string index. *)
Definition getitem_item (v : json) (x : scalar) : result json :=
  match x with
  | SStr key => getitem v key
  | _ => Raise TypeError
  end.

(** A cached entry: the tuple [(date, temperature)]. *)
Definition point : Type := scalar * scalar.

(** *** [_convert_json_to_list] *)

(** The locals [dates] and [temps]; [None] while unbound. *)
Definition locals : Type := option json * option json.

(** One pass of the body of [for times in daily_data]. *)
Definition loop_body (daily_data : json) (env : locals) (times : scalar)
  : result locals :=
  (env1 <- (if eq_str times "time"
            then (d <- getitem_item daily_data times ;; Ok (Some d, snd env))
            else Ok env) ;;
   if eq_str times "temperature_2m_max"
   then (t <- getitem_item daily_data times ;; Ok (fst env1, Some t))
   else Ok env1)%py.

Fixpoint for_loop (daily_data : json) (items : list scalar) (env : locals)
  : result locals :=
  match items with
  | [] => Ok env
  | times :: rest =>
      (env' <- loop_body daily_data env times ;;
       for_loop daily_data rest env')%py
  end.

(** Reading a local: [UnboundLocalError] when it was never assigned. *)
Definition read_local (v : option json) : result json :=
  match v with
  | Some x => Ok x
  | None => Raise UnboundLocalError
  end.

(** [zip(a, b)] on two already iterated sequences stops at the shorter. *)
Definition zip (a b : list scalar) : list point := combine a b.

Definition _convert_json_to_list (data : body) : result (list point) :=
  (data <- json_loads data ;;
   daily_data <- getitem data "daily" ;;
   items <- iterate daily_data ;;
   env <- for_loop daily_data items (None, None) ;;
   dates <- read_local (fst env) ;;
   temps <- read_local (snd env) ;;
   ds <- iterate dates ;;
   ts <- iterate temps ;;
   Ok (zip ds ts))%py.

End Values.

Arguments SNull {num}.
Arguments SBool {num} b.
Arguments SStr {num} s.
Arguments Malformed {num}.

(** ** State: the object and the session

    A method runs on the object [self] and on the count of requests the
    session has sent to the archive so far.  A raised exception leaves the
    state as it was at the raise. *)
Section Monad.

Variable S : Type.

Definition M (A : Type) : Type := S -> result A * S.

Definition ret {A : Type} (a : A) : M A := fun s => (Ok a, s).

Definition raise {A : Type} (e : exn) : M A := fun s => (Raise e, s).

Definition bind {A B : Type} (m : M A) (k : A -> M B) : M B :=
  fun s =>
    match m s with
    | (Ok a, s') => k a s'
    | (Raise e, s') => (Raise e, s')
    end.

Definition get : M S := fun s => (Ok s, s).

Definition modify (f : S -> S) : M unit := fun s => (Ok tt, f s).

(** [try: m  except Exception: handler]; every modelled exception is an
    [Exception]. *)
Definition try_except {A : Type} (m : M A) (handler : M A) : M A :=
  fun s =>
    match m s with
    | (Ok a, s') => (Ok a, s')
    | (Raise _, s') => handler s'
    end.

Definition lift {A : Type} (r : result A) : M A := fun s => (r, s).

End Monad.

Arguments ret {S A} a.
Arguments raise {S A} e.
Arguments bind {S A B} m k.
Arguments get {S}.
Arguments modify {S} f.
Arguments try_except {S A} m handler.
Arguments lift {S A} r.

Declare Scope method_scope.
Delimit Scope method_scope with method.
Notation "x <- m ;; k" := (bind m (fun x => k))
  (at level 61, m at next level, right associativity) : method_scope.
Notation "m ;; k" := (bind m (fun _ => k))
  (at level 61, right associativity) : method_scope.

(** ** The class [HistoricalTemps] *)
Section HistoricalTemps.

Context {num : Type} `{PyNum num}.

#[local] Abbreviation scalar := (@scalar num).
#[local] Abbreviation json := (@json num).
#[local] Abbreviation body := (@body num).
#[local] Abbreviation point := (@point num).

(** The query parameters of one archive request. *)
Record request : Type := {
  latitude : num;
  longitude : num;
  start_date : string;
  end_date : string;
  daily : string;
  timezone : string
}.

(** What [requests.get] does: it raises, or returns a response whose text
    is the body. *)
Inductive http_result : Type :=
| Fails
| Response (text : body).

(** The archive endpoint: its answer to the [k]-th request of the session. *)
Variable archive : nat -> request -> http_result.

(** The geocoder's table: for a postal code it knows, latitude, longitude
    and place name. *)
Variable geocoder : string -> option (num * num * scalar).

(** [query_postal_code]: for a code that is not in the table every field of
    the returned row is NaN. *)
Definition query_postal_code (zip_code : string) : num * num * scalar :=
  match geocoder zip_code with
  | Some row => row
  | None => (num_nan, num_nan, SNum num_nan)
  end.

Record HistoricalTemps : Type := {
  _zip_code : string;
  _start : string;
  _end : string;
  _lat : num;
  _lon : num;
  _loc_name : scalar;
  _temp_list : list point
}.

(** The state a method runs on. *)
Record state : Type := {
  self : HistoricalTemps;
  sent : nat
}.

Definition method (A : Type) : Type := M state A.

Definition set_start_field (v : string) (o : HistoricalTemps) : HistoricalTemps :=
  {| _zip_code := _zip_code o; _start := v; _end := _end o; _lat := _lat o;
     _lon := _lon o; _loc_name := _loc_name o; _temp_list := _temp_list o |}.

Definition set_end_field (v : string) (o : HistoricalTemps) : HistoricalTemps :=
  {| _zip_code := _zip_code o; _start := _start o; _end := v; _lat := _lat o;
     _lon := _lon o; _loc_name := _loc_name o; _temp_list := _temp_list o |}.

Definition set_temp_list (v : list point) (o : HistoricalTemps) : HistoricalTemps :=
  {| _zip_code := _zip_code o; _start := _start o; _end := _end o; _lat := _lat o;
     _lon := _lon o; _loc_name := _loc_name o; _temp_list := v |}.

Definition on_self (f : HistoricalTemps -> HistoricalTemps) : method unit :=
  modify (fun st => {| self := f (self st); sent := sent st |}).

Definition get_self : method HistoricalTemps :=
  fun st => (Ok (self st), st).

(** [requests.get(request_url, parameters)]: one request is sent, whatever
    comes of it. *)
Definition requests_get (parameters : request) : method body :=
  fun st =>
    let st' := {| self := self st; sent := Datatypes.S (sent st) |} in
    match archive (sent st) parameters with
    | Fails => (Raise RequestException, st')
    | Response text => (Ok text, st')
    end.

(** *** [zip_to_loc_info] *)
Definition zip_to_loc_info (zip_code : string) : num * num * scalar :=
  let result := query_postal_code zip_code in
  let '(lat, lon, loc_name) := result in
  (lat, lon, loc_name).

(** *** [_load_temps] *)
Definition _load_temps : method (list point) :=
  (o <- get_self ;;
   let parameters :=
     {| latitude := _lat o; longitude := _lon o;
        start_date := _start o; end_date := _end o;
        daily := "temperature_2m_max";
        timezone := "America/Los_Angeles" |} in
   results <- requests_get parameters ;;
   temp_list <- lift (_convert_json_to_list results) ;;
   on_self (set_temp_list temp_list) ;;
   ret temp_list)%method.

(** *** [__init__]

    [results[1]] is the second component of the tuple that
    [zip_to_loc_info] returns.  [_temp_list] is [None] only between its
    assignment and the first load, inside the constructor; the embedding
    starts it empty. *)
Definition __init__ (zip_code start end_ : string) (k : nat)
  : result HistoricalTemps * nat :=
  let results := zip_to_loc_info zip_code in
  if num_isnan (snd (fst results)) then (Raise LookupError, k)
  else
    let '(lat, lon, loc_name) := results in
    let o := {| _zip_code := zip_code; _start := start; _end := end_;
                _lat := lat; _lon := lon; _loc_name := loc_name;
                _temp_list := [] |} in
    match _load_temps {| self := o; sent := k |} with
    | (Ok _, st) => (Ok (self st), sent st)
    | (Raise e, st) => (Raise e, sent st)
    end.

Definition default_start : string := "1950-08-13".
Definition default_end : string := "2023-08-25".

(** *** The setters of [start] and [end] *)
Definition set_start (start : string) : method unit :=
  (o <- get_self ;;
   let og_start := _start o in
   on_self (set_start_field start) ;;
   try_except
     (_load_temps ;; ret tt)
     (on_self (set_start_field og_start) ;;
      _load_temps ;;
      raise LookupError))%method.

Definition set_end (end_ : string) : method unit :=
  (o <- get_self ;;
   let og_end := _end o in
   on_self (set_end_field end_) ;;
   try_except
     (_load_temps ;; ret tt)
     (on_self (set_end_field og_end) ;;
      _load_temps ;;
      raise LookupError))%method.

(** *** Python's operators on the cached values *)

(** A value that behaves as a number: a number, or a bool. *)
Definition as_number (v : scalar) : option num :=
  match v with
  | SNum x => Some x
  | SBool b => Some (num_of_bool b)
  | _ => None
  end.

(** [v > threshold] for a float [threshold]. *)
Definition py_gt (v : scalar) (threshold : num) : result bool :=
  match as_number v with
  | Some x => Ok (num_lt threshold x)
  | None => Raise TypeError
  end.

(** [total + v] for a number [total]. *)
Definition py_add (total : num) (v : scalar) : result num :=
  match as_number v with
  | Some x => Ok (num_add total x)
  | None => Raise TypeError
  end.

(** [a < b]: numbers compare with numbers and strings with strings. *)
Definition py_lt (a b : scalar) : result bool :=
  match a, b with
  | SStr s, SStr t => Ok (String.ltb s t)
  | _, _ =>
      match as_number a, as_number b with
      | Some x, Some y => Ok (num_lt x y)
      | _, _ => Raise TypeError
      end
  end.

(** *** [extreme_days] *)
Fixpoint comprehension (temp_list : list point) (threshold : num)
  : result (list point) :=
  match temp_list with
  | [] => Ok []
  | high_temps :: rest =>
      (keep <- py_gt (snd high_temps) threshold ;;
       tail <- comprehension rest threshold ;;
       Ok (if keep then high_temps :: tail else tail))%py
  end.

Definition extreme_days (threshold : num) : method (list point) :=
  (o <- get_self ;;
   extremes_list <- lift (comprehension (_temp_list o) threshold) ;;
   ret extremes_list)%method.

(** *** [average_temp] *)
Fixpoint sum_loop (temperature_list : list point) (total_temps : num)
  : result num :=
  match temperature_list with
  | [] => Ok total_temps
  | temperature :: rest =>
      (total <- py_add total_temps (snd temperature) ;;
       sum_loop rest total)%py
  end.

(** [total / n] for [n = len(...)]. *)
Definition py_div_len (total : num) (n : nat) : result num :=
  match n with
  | O => Raise ZeroDivisionError
  | _ => Ok (num_truediv total (num_of_len n))
  end.

Definition average_temp : method num :=
  (temperature_list <- _load_temps ;;
   total_temps <- lift (sum_loop temperature_list num_zero) ;;
   o <- get_self ;;
   avg_temp <- lift (py_div_len total_temps (List.length (_temp_list o))) ;;
   ret avg_temp)%method.

(** *** [top_x_days] *)

(** [sorted(..., key=lambda x: x[1], reverse=True)].  The builtin sorts
    stably with [<] on the keys; with [reverse=True] it reverses the list,
    sorts it ascending and reverses the outcome, so that ties keep the order
    they came in.  The ascending sort is written here as a stable insertion
    sort: an element goes in front of the first one that is not below it. *)
Fixpoint insert (x : point) (sorted : list point) : result (list point) :=
  match sorted with
  | [] => Ok [x]
  | y :: rest =>
      (below <- py_lt (snd y) (snd x) ;;
       if below then (tail <- insert x rest ;; Ok (y :: tail))
       else Ok (x :: sorted))%py
  end.

Fixpoint sort_asc (l : list point) : result (list point) :=
  match l with
  | [] => Ok []
  | x :: rest => (sorted <- sort_asc rest ;; insert x sorted)%py
  end.

Definition sorted_reverse (l : list point) : result (list point) :=
  (ascending <- sort_asc (rev l) ;; Ok (rev ascending))%py.

(** [l[:stop]]: a negative [stop] counts from the end. *)
Definition slice_to (l : list point) (stop : Z) : list point :=
  if (stop <? 0)%Z
  then firstn (Z.to_nat (Z.of_nat (List.length l) + stop)) l
  else firstn (Z.to_nat stop) l.

Definition top_x_days (num_days : Z) : method (list point) :=
  (o <- get_self ;;
   top_days <- lift (sorted_reverse (_temp_list o)) ;;
   ret (slice_to top_days num_days))%method.

Definition default_num_days : Z := 10.

(** *** [compare_average_temps] *)

(** What [print] writes: the pieces of one formatted line.  [Rounded x n]
    is the text of [round(x, n)]. *)
Inductive piece : Type :=
| Text (s : string)
| Value (v : scalar)
| Rounded (x : num) (ndigits : nat).

Definition line : Type := list piece.

(** What the shell holds: its two dataset slots, the requests sent so far
    and the lines printed.  The two slots never hold the same object. *)
Record console : Type := {
  dataset_one : option HistoricalTemps;
  dataset_two : option HistoricalTemps;
  requests : nat;
  printed : list line
}.

Definition average_line (o : HistoricalTemps) (avg : num) : line :=
  [Text "The average maximum temperatures for "; Value (_loc_name o);
   Text " was "; Rounded avg 2; Text " degrees Celsius."].

Definition compare_average_temps (c : console) : result unit * console :=
  match dataset_one c, dataset_two c with
  | Some one, Some two =>
      match average_temp {| self := one; sent := requests c |} with
      | (Raise e, st1) =>
          (Raise e,
           {| dataset_one := Some (self st1); dataset_two := Some two;
              requests := sent st1; printed := printed c |})
      | (Ok ds1_avg_temp, st1) =>
          match average_temp {| self := two; sent := sent st1 |} with
          | (Raise e, st2) =>
              (Raise e,
               {| dataset_one := Some (self st1);
                  dataset_two := Some (self st2);
                  requests := sent st2; printed := printed c |})
          | (Ok ds2_avg_temp, st2) =>
              (Ok tt,
               {| dataset_one := Some (self st1);
                  dataset_two := Some (self st2);
                  requests := sent st2;
                  printed := printed c
                             ++ [average_line (self st1) ds1_avg_temp;
                                 average_line (self st2) ds2_avg_temp] |})
          end
      end
  | _, _ =>
      (Ok tt,
       {| dataset_one := dataset_one c; dataset_two := dataset_two c;
          requests := requests c;
          printed := printed c ++ [[Text "Please load two datasets first"]] |})
  end.

End HistoricalTemps.

(** ** Vocabulary of the properties *)
Section Vocabulary.

Context {num : Type} `{PyNum num}.

#[local] Abbreviation json := (@json num).
#[local] Abbreviation point := (@point num).
#[local] Abbreviation HistoricalTemps := (@HistoricalTemps num).
#[local] Abbreviation state := (@state num).

(** Whether a dict has the key [k]. *)
Definition has_key (k : string) (members : list (string * json)) : bool :=
  existsb (fun kv => String.eqb (fst kv) k) members.

(** The query parameters [_load_temps] sends for an object. *)
Definition request_for (o : HistoricalTemps) : request :=
  {| latitude := _lat o; longitude := _lon o;
     start_date := _start o; end_date := _end o;
     daily := "temperature_2m_max";
     timezone := "America/Los_Angeles" |}.

(** The state after one more request, the object untouched. *)
Definition one_more (st : state) : state :=
  {| self := self st; sent := S (sent st) |}.

(** The state after a load that stored [l]. *)
Definition loaded (l : list point) (st : state) : state :=
  {| self := set_temp_list l (self st); sent := S (sent st) |}.

(** The state in which the first reload of a setter runs. *)
Definition with_start (start : string) (st : state) : state :=
  {| self := set_start_field start (self st); sent := sent st |}.

(** The same for the end date. *)
Definition with_end (end_ : string) (st : state) : state :=
  {| self := set_end_field end_ (self st); sent := sent st |}.

(** The temperature of an entry as a number, when it is one. *)
Definition temperature (p : point) : option num := as_number (snd p).

(** Whether the temperature of an entry is a number. *)
Definition is_numeric (p : point) : bool :=
  match temperature p with
  | Some _ => true
  | None => false
  end.

(** The temperatures of a series that are numbers, in its order. *)
Definition temperatures (l : list point) : list num :=
  flat_map (fun p => match temperature p with
                     | Some x => [x]
                     | None => []
                     end) l.

(** [p[1] > threshold] on an entry whose temperature is a number. *)
Definition above (threshold : num) (p : point) : bool :=
  match temperature p with
  | Some x => num_lt threshold x
  | None => false
  end.

(** [x[1] < y[1]] on entries whose temperatures are numbers. *)
Definition below (x y : point) : bool :=
  match temperature x, temperature y with
  | Some a, Some b => num_lt a b
  | _, _ => false
  end.

(** Two entries tie when neither is below the other. *)
Definition tie (q p : point) : bool := negb (below p q) && negb (below q p).

(** [<] orders the temperatures of a series when, on them, it is asymmetric
    and its complement is transitive.  On floats this holds of any series
    without a not-a-number. *)
Definition ordered_by_lt (l : list point) : Prop :=
  (forall a b : point, In a l -> In b l ->
                       below a b = true -> below b a = false)
  /\ (forall a b c : point, In a l -> In b l -> In c l ->
                            below a b = false -> below b c = false ->
                            below a c = false).

(** The insertion step of the sort without its exceptions. *)
Fixpoint insert_number (x : point) (sorted : list point) : list point :=
  match sorted with
  | [] => [x]
  | y :: rest =>
      if below y x then y :: insert_number x rest else x :: sorted
  end.

(** The ascending stable sort without its exceptions. *)
Fixpoint sort_numbers (l : list point) : list point :=
  match l with
  | [] => []
  | x :: rest => insert_number x (sort_numbers rest)
  end.

(** No entry is below an earlier one. *)
Definition ascending : list point -> Prop :=
  StronglySorted (fun a b => below b a = false).

(** No entry is below a later one. *)
Definition descending : list point -> Prop :=
  StronglySorted (fun a b => below a b = false).

End Vocabulary.

(** ** Concrete sessions, on floats *)
Module Demo.

Definition day (d : string) (t : float) : point (num := float) :=
  (SStr d, SNum t).

(** A body as the archive sends it: coordinates, then the [daily] object
    with its two arrays. *)
Definition payload (dates : list string) (temps : list float)
  : body (num := float) :=
  Decodes (JObj [("latitude", JLeaf (SNum 37.5%float));
                 ("longitude", JLeaf (SNum (-122)%float));
                 ("daily", JObj [("time", JArr (map SStr dates));
                                 ("temperature_2m_max",
                                  JArr (map SNum temps))])]).

(** The body the archive sends, with status 400, for a date it rejects. *)
Definition error_payload : body (num := float) :=
  Decodes (JObj [("error", JLeaf (SBool true));
                 ("reason", JLeaf (SStr "Invalid date"))]).

(** A dataset for 2020-01-01, with one cached entry. *)
Definition mountain_view : HistoricalTemps (num := float) :=
  {| _zip_code := "94041"; _start := "2020-01-01"; _end := "2020-01-01";
     _lat := 37.5%float; _lon := (-122)%float;
     _loc_name := SStr "Mountain View";
     _temp_list := [day "2020-01-01" 30] |}.

Definition palo_alto : HistoricalTemps (num := float) :=
  {| _zip_code := "94301"; _start := "2020-01-01"; _end := "2020-01-01";
     _lat := 37.25%float; _lon := (-122)%float;
     _loc_name := SStr "Palo Alto";
     _temp_list := [day "2020-01-01" 20] |}.

(** A dataset with three cached entries, two of them tied. *)
Definition three_days : HistoricalTemps (num := float) :=
  {| _zip_code := "94041"; _start := "2020-01-01"; _end := "2020-01-03";
     _lat := 37.5%float; _lon := (-122)%float;
     _loc_name := SStr "Mountain View";
     _temp_list := [day "2020-01-01" 20; day "2020-01-02" 30;
                    day "2020-01-03" 20] |}.

Definition session (o : HistoricalTemps (num := float))
  : state (num := float) :=
  {| self := o; sent := 0 |}.

Definition valid_range (r : request (num := float)) : bool :=
  String.eqb (start_date r) "2020-01-01"
  && String.eqb (end_date r) "2020-01-01".

(** An archive that answers the same request the same way: the one day it
    has for the range 2020-01-01, an error body for any other range. *)
Definition archive_steady (k : nat) (r : request (num := float))
  : http_result (num := float) :=
  if valid_range r then Response (payload ["2020-01-01"] [30%float])
  else Response error_payload.

(** The same archive after it has revised its value for that day. *)
Definition archive_revised (k : nat) (r : request (num := float))
  : http_result (num := float) :=
  if valid_range r then Response (payload ["2020-01-01"] [31%float])
  else Response error_payload.

(** An archive that cannot be reached. *)
Definition archive_down (k : nat) (r : request (num := float))
  : http_result (num := float) :=
  Fails.

(** An archive that is reached once and then not any more. *)
Definition archive_lost (k : nat) (r : request (num := float))
  : http_result (num := float) :=
  match k with
  | O => archive_steady k r
  | S _ => Fails
  end.

(** An archive that now has two days for the range. *)
Definition archive_two_days (k : nat) (r : request (num := float))
  : http_result (num := float) :=
  Response (payload ["2020-01-01"; "2020-01-02"] [10%float; 20%float]).

(** An archive whose answer holds two dates and one temperature. *)
Definition archive_mismatched (k : nat) (r : request (num := float))
  : http_result (num := float) :=
  Response (payload ["2020-01-01"; "2020-01-02"] [10%float]).

(** An archive whose answer is not JSON, and one whose answer is JSON
    without the member [daily]. *)
Definition archive_garbled (k : nat) (r : request (num := float))
  : http_result (num := float) :=
  Response Malformed.

Definition archive_rejecting (k : nat) (r : request (num := float))
  : http_result (num := float) :=
  Response error_payload.

(** A geocoder that knows one postal code. *)
Definition geocoder (zip_code : string)
  : option (float * float * scalar (num := float)) :=
  if String.eqb zip_code "94041"
  then Some (37.5%float, (-122)%float, SStr "Mountain View")
  else None.

Definition shell (one two : option (HistoricalTemps (num := float)))
  : console (num := float) :=
  {| dataset_one := one; dataset_two := two; requests := 0; printed := [] |}.

End Demo.

(** ** The shell

    The functions of the module that talk to the user.  [print] appends a
    line to what the terminal shows; [input] writes its prompt and hands
    back what the user types next.  A function that is given a dataset
    returns, besides its outcome, the object as the call left it. *)
Section Shell.

Context {num : Type} `{PyNum num}.

#[local] Abbreviation scalar := (@scalar num).
#[local] Abbreviation point := (@point num).
#[local] Abbreviation HistoricalTemps := (@HistoricalTemps num).
#[local] Abbreviation state := (@state num).
#[local] Abbreviation line := (@line num).

Variable archive : nat -> request (num := num) -> http_result (num := num).
Variable geocoder : string -> option (num * num * scalar).

(** What the user types: the answer to the [k]-th [input] of the session.
    The user answers every question; the input never ends. *)
Variable keyboard : nat -> string.

(** The builtins [float] and [int] on a typed string: the number, or [None]
    where they raise [ValueError]. *)
Variable py_float : string -> option num.
Variable py_int : string -> option Z.

(** *** The read-only properties of the class *)
Definition zip_code (o : HistoricalTemps) : string := _zip_code o.
Definition start (o : HistoricalTemps) : string := _start o.
Definition end_ (o : HistoricalTemps) : string := _end o.
Definition loc_name (o : HistoricalTemps) : scalar := _loc_name o.

(** The terminal: the answers read so far, the requests sent so far and
    what has been written, prompts included. *)
Record terminal : Type := {
  typed : nat;
  requested : nat;
  shown : list line
}.

Definition print (l : line) (t : terminal) : terminal :=
  {| typed := typed t; requested := requested t; shown := shown t ++ [l] |}.

Definition input (prompt : string) (t : terminal) : string * terminal :=
  (keyboard (typed t),
   {| typed := S (typed t); requested := requested t;
      shown := shown t ++ [[Text prompt]] |}).

(** The terminal after a method call that left the session at [st]. *)
Definition after_call (st : state) (t : terminal) : terminal :=
  {| typed := typed t; requested := sent st; shown := shown t |}.

(** [for p in l: print(f p)]. *)
Fixpoint print_each (f : point -> line) (l : list point) (t : terminal)
  : terminal :=
  match l with
  | [] => t
  | p :: rest => print_each f rest (print (f p) t)
  end.

(** *** [print_extreme_days] *)
Definition extreme_line (extreme_days : point) : line :=
  [Value (fst extreme_days); Text ": "; Value (snd extreme_days)].

Definition print_extreme_days (dataset : option HistoricalTemps) (t : terminal)
  : result unit * option HistoricalTemps * terminal :=
  match dataset with
  | None => (Ok tt, None, print [Text "Please load this dataset first"] t)
  | Some o =>
      let (typed_threshold, t1) := input "List days above what temperature? " t in
      match py_float typed_threshold with
      | None =>
          (Ok tt, Some o, print [Text "Please enter a valid temperature"] t1)
      | Some threshold =>
          match extreme_days threshold {| self := o; sent := requested t1 |} with
          | (Raise e, st) => (Raise e, Some (self st), after_call st t1)
          | (Ok list_of_extreme_days, st) =>
              let number_of_exceeded_days := List.length list_of_extreme_days in
              let t2 :=
                print [Text "There are ";
                       Value (SNum (num_of_len number_of_exceeded_days));
                       Text " days above "; Value (SNum threshold);
                       Text " in "; Value (loc_name (self st))]
                      (after_call st t1) in
              (Ok tt, Some (self st),
               print_each extreme_line list_of_extreme_days t2)
          end
      end
  end.

(** *** [print_top_five_days] *)
Definition top_line (extreme_days : point) : line :=
  [Text "Date "; Value (fst extreme_days); Text ": ";
   Value (snd extreme_days)].

Definition print_top_five_days (dataset : option HistoricalTemps) (t : terminal)
  : result unit * option HistoricalTemps * terminal :=
  match dataset with
  | None => (Ok tt, None, print [Text "Please load this dataset first"] t)
  | Some o =>
      match top_x_days 5 {| self := o; sent := requested t |} with
      | (Raise e, st) => (Raise e, Some (self st), after_call st t)
      | (Ok top_5_days, st) =>
          let t1 :=
            print [Text "Following are the hottest five days in ";
                   Value (loc_name (self st)); Text " on record from ";
                   Value (SStr (start (self st))); Text " to ";
                   Value (SStr (end_ (self st)))]
                  (after_call st t) in
          (Ok tt, Some (self st), print_each top_line top_5_days t1)
      end
  end.

(** *** [change_dates]

    The two messages name fixed dates, whatever the range of the dataset. *)
Definition start_not_changed : line :=
  [Text ("Start date could not be changed. "
         ++ "Please check that the start date is in the "
         ++ "correct format and is before the current end date "
         ++ "of 2020-10-10")].

Definition end_not_changed : line :=
  [Text ("End date could not be changed. "
         ++ "Please check that the end date is in the "
         ++ "correct format and is after the current "
         ++ "start date of 2022-11-10")].

Definition change_dates (dataset : option HistoricalTemps) (t : terminal)
  : result unit * option HistoricalTemps * terminal :=
  match dataset with
  | None => (Ok tt, None, print [Text "Please load this dataset first"] t)
  | Some o =>
      let (start_dates, t1) :=
        input "Please enter a new start date (YYYY-MM-DD): " t in
      match set_start archive start_dates
                      {| self := o; sent := requested t1 |} with
      | (Raise e, st) =>
          if is_LookupError e
          then (Ok tt, Some (self st), print start_not_changed (after_call st t1))
          else (Raise e, Some (self st), after_call st t1)
      | (Ok _, st) =>
          let (end_date, t2) :=
            input "Please enter a new end date (YYYY-MM-DD): "
                  (after_call st t1) in
          match set_end archive end_date
                        {| self := self st; sent := requested t2 |} with
          | (Raise e, st') =>
              if is_LookupError e
              then (Ok tt, Some (self st'),
                    print end_not_changed (after_call st' t2))
              else (Raise e, Some (self st'), after_call st' t2)
          | (Ok _, st') => (Ok tt, Some (self st'), after_call st' t2)
          end
      end
  end.

(** *** [create_dataset]

    The constructor is called with its default dates.  The handler catches
    [LookupError] and its subclasses; any other exception leaves the
    function. *)
Definition not_loaded : line :=
  [Text ("Data could not be loaded. Please check that the zip code"
         ++ " is correct and that you have a working internet connection")].

Definition create_dataset (t : terminal)
  : result (option HistoricalTemps) * terminal :=
  let (typed_zip, t1) := input "Please enter a zipcode " t in
  match __init__ archive geocoder typed_zip default_start default_end
                 (requested t1) with
  | (Ok user_zipcode, k) =>
      (Ok (Some user_zipcode),
       {| typed := typed t1; requested := k; shown := shown t1 |})
  | (Raise e, k) =>
      let t2 := {| typed := typed t1; requested := k; shown := shown t1 |} in
      if is_LookupError e then (Ok None, print not_loaded t2)
      else (Raise e, t2)
  end.

(** *** [print_menu]

    An object of the class is true: [not dataset] holds of [None] only. *)
Definition print_menu (one two : option HistoricalTemps) (t : terminal)
  : terminal :=
  let t := print [Text "Main Menu"] t in
  let t := match one with
           | None => print [Text "1 - Load dataset one"] t
           | Some o => print [Text "1 - Replace "; Value (loc_name o)] t
           end in
  let t := match two with
           | None => print [Text "2 - Load dataset two"] t
           | Some o => print [Text "2 - Replace "; Value (loc_name o)] t
           end in
  let t := print [Text "3 - Compare average temperatures"] t in
  let t := print [Text "4 - Dates above threshold temperature"] t in
  let t := print [Text "5 - Highest historical dates"] t in
  let t := print [Text "6 - Change start and end dates for dataset one"] t in
  let t := print [Text "7 - Change start and end dates for dataset two"] t in
  print [Text "9 - Quit"] t.

(** *** [menu] *)

(** How one pass of [while True] ends: with the next pass, or at [break]. *)
Inductive control : Type :=
| Continue
| Break.

(** The locals [dataset_one] and [dataset_two] of [menu]. *)
Definition slots : Type := (option HistoricalTemps * option HistoricalTemps)%type.

(** A call on one of the slots, the other left alone. *)
Definition on_one (two : option HistoricalTemps)
           (r : result unit * option HistoricalTemps * terminal)
  : result (control * slots) * terminal :=
  match r with
  | (Ok _, one, t) => (Ok (Continue, (one, two)), t)
  | (Raise e, _, t) => (Raise e, t)
  end.

Definition on_two (one : option HistoricalTemps)
           (r : result unit * option HistoricalTemps * terminal)
  : result (control * slots) * terminal :=
  match r with
  | (Ok _, two, t) => (Ok (Continue, (one, two)), t)
  | (Raise e, _, t) => (Raise e, t)
  end.

(** One pass of the body of [while True].  The [match] is on the typed
    string, not on the integer it was converted to. *)
Definition menu_body (one two : option HistoricalTemps) (t : terminal)
  : result (control * slots) * terminal :=
  let t := print_menu one two t in
  let (user_choice, t) := input "What is your choice? " t in
  match py_int user_choice with
  | None => (Ok (Continue, (one, two)), print [Text "Please enter a number only"] t)
  | Some int_choice =>
      if String.eqb user_choice "1" then
        match create_dataset t with
        | (Ok created, t') => (Ok (Continue, (created, two)), t')
        | (Raise e, t') => (Raise e, t')
        end
      else if String.eqb user_choice "2" then
        match create_dataset t with
        | (Ok created, t') => (Ok (Continue, (one, created)), t')
        | (Raise e, t') => (Raise e, t')
        end
      else if String.eqb user_choice "3" then
        match compare_average_temps archive
                {| dataset_one := one; dataset_two := two;
                   requests := requested t; printed := shown t |} with
        | (Ok _, c) =>
            (Ok (Continue, (dataset_one c, dataset_two c)),
             {| typed := typed t; requested := requests c;
                shown := printed c |})
        | (Raise e, c) =>
            (Raise e,
             {| typed := typed t; requested := requests c;
                shown := printed c |})
        end
      else if String.eqb user_choice "4" then on_one two (print_extreme_days one t)
      else if String.eqb user_choice "5" then on_one two (print_top_five_days one t)
      else if String.eqb user_choice "6" then on_one two (change_dates one t)
      else if String.eqb user_choice "7" then on_two one (change_dates two t)
      else if String.eqb user_choice "8" then
        (Ok (Continue, (one, two)),
         print [Text "Selection eight is not functional yet"] t)
      else if String.eqb user_choice "9" then
        (Ok (Break, (one, two)),
         print [Text "Goodbye!  Thank you for using the database"] t)
      else
        (Ok (Continue, (one, two)),
         print [Text "That wasn't a valid selection"] t)
  end.

(** The loop, for at most [passes] passes: [None] when it is still running
    after them. *)
Fixpoint menu_loop (passes : nat) (one two : option HistoricalTemps)
         (t : terminal) : option (result unit * terminal) :=
  match passes with
  | O => None
  | S passes' =>
      match menu_body one two t with
      | (Raise e, t') => Some (Raise e, t')
      | (Ok (Break, _), t') => Some (Ok tt, t')
      | (Ok (Continue, (one', two')), t') => menu_loop passes' one' two' t'
      end
  end.

Definition menu (passes : nat) (t : terminal)
  : option (result unit * terminal) :=
  menu_loop passes None None t.

(** *** [main] *)
Definition main (passes : nat) (t : terminal)
  : option (result unit * terminal) :=
  let (user_name, t) := input "Please enter your name: " t in
  let t := print [Text "Hi "; Value (SStr user_name);
                  Text ", let's explore some historical temperatures."] t in
  menu passes t.

End Shell.

(** ** Vocabulary of the properties of the shell *)
Section ShellVocabulary.

Context {num : Type} `{PyNum num}.

#[local] Abbreviation scalar := (@scalar num).
#[local] Abbreviation point := (@point num).
#[local] Abbreviation HistoricalTemps := (@HistoricalTemps num).
#[local] Abbreviation line := (@line num).

(** The object as [__init__] has it when it calls [_load_temps]. *)
Definition created (zip_code start end_ : string) (lat lon : num)
           (name : scalar) : HistoricalTemps :=
  {| _zip_code := zip_code; _start := start; _end := end_;
     _lat := lat; _lon := lon; _loc_name := name; _temp_list := [] |}.

(** Two objects for the same place: zip code, coordinates and name agree. *)
Definition same_place (o o' : HistoricalTemps) : Prop :=
  _zip_code o' = _zip_code o /\ _lat o' = _lat o /\ _lon o' = _lon o
  /\ _loc_name o' = _loc_name o.

(** The mean of the temperatures of a series: their sum, from the literal
    0 and in the order of the series, over the number of entries. *)
Definition mean (l : list point) : num :=
  num_truediv (fold_left num_add (temperatures l) num_zero)
              (num_of_len (List.length l)).

(** What [input] writes. *)
Definition prompt (s : string) : line := [Text s].

(** The strings the [match] of [menu] has a case for. *)
Definition listed : list string :=
  ["1"; "2"; "3"; "4"; "5"; "6"; "7"; "8"; "9"].

(** Whether a typed string is one of them. *)
Definition is_listed (s : string) : bool :=
  existsb (String.eqb s) listed.

(** The lines of the menu: the first two name the place of a loaded
    dataset. *)
Definition menu_lines (one two : option HistoricalTemps) : list line :=
  [[Text "Main Menu"];
   match one with
   | None => [Text "1 - Load dataset one"]
   | Some o => [Text "1 - Replace "; Value (_loc_name o)]
   end;
   match two with
   | None => [Text "2 - Load dataset two"]
   | Some o => [Text "2 - Replace "; Value (_loc_name o)]
   end;
   [Text "3 - Compare average temperatures"];
   [Text "4 - Dates above threshold temperature"];
   [Text "5 - Highest historical dates"];
   [Text "6 - Change start and end dates for dataset one"];
   [Text "7 - Change start and end dates for dataset two"];
   [Text "9 - Quit"]].

(** The last line of a session that was quit. *)
Definition goodbye : line :=
  [Text "Goodbye!  Thank you for using the database"].

End ShellVocabulary.

(** ** Concrete sessions at the terminal, on floats *)
Module DemoShell.

(** The answers the user types, in order; after the last one the user
    types 9. *)
Definition keys (answers : list string) (k : nat) : string :=
  nth k answers "9".

(** [int] on the answers of these sessions: a string of decimal digits
    converts, the other answers typed here do not. *)
Definition digit (c : ascii) : option Z :=
  let n := nat_of_ascii c in
  if (48 <=? n)%nat && (n <=? 57)%nat then Some (Z.of_nat (n - 48)) else None.

Fixpoint digits (s : string) (acc : Z) : option Z :=
  match s with
  | EmptyString => Some acc
  | String c rest =>
      match digit c with
      | Some d => digits rest (10 * acc + d)
      | None => None
      end
  end.

Definition int_of (s : string) : option Z :=
  match s with
  | EmptyString => None
  | _ => digits s 0
  end.

(** [float] on the same answers. *)
Definition float_of (s : string) : option float :=
  match int_of s with
  | Some z => Some (PrimFloat.of_uint63 (Uint63.of_Z z))
  | None => None
  end.

(** The terminal at the start of a session. *)
Definition fresh : terminal (num := float) :=
  {| typed := 0; requested := 0; shown := [] |}.

(** An answer whose [daily] object has dates and no temperatures. *)
Definition payload_without_temperatures : body (num := float) :=
  Decodes (JObj [("daily",
                  JObj [("time", JArr [SStr "2020-01-01"])])]).

(** An archive that has no day for any range. *)
Definition archive_empty (k : nat) (r : request (num := float))
  : http_result (num := float) :=
  Response (Demo.payload [] []).

(** An archive whose answer holds a null temperature. *)
Definition archive_null (k : nat) (r : request (num := float))
  : http_result (num := float) :=
  Response (Decodes (JObj [("daily",
                            JObj [("time", JArr [SStr "2020-01-01"]);
                                  ("temperature_2m_max", JArr [SNull])])])).

(** An archive with two days, 10 and 20, for the latitude of Mountain View
    and three days, 10, 20 and 60, for any other place. *)
Definition archive_by_place (k : nat) (r : request (num := float))
  : http_result (num := float) :=
  if PrimFloat.eqb (latitude r) 37.5
  then Response (Demo.payload ["2020-01-01"; "2020-01-02"]
                              [10%float; 20%float])
  else Response (Demo.payload ["2020-01-01"; "2020-01-02"; "2020-01-03"]
                              [10%float; 20%float; 60%float]).

(** A dataset with a cached entry whose temperature is null. *)
Definition with_null : HistoricalTemps (num := float) :=
  set_temp_list [Demo.day "2020-01-01" 30; (SStr "2020-01-02", SNull)]
                Demo.mountain_view.

End DemoShell.

(** ** Tactics for the concrete sessions *)

Ltac evaluate := vm_compute; reflexivity.

Ltac decide_order :=
  vm_compute; intros; solve [reflexivity | discriminate].

Ltac each_entry H :=
  simpl in H; repeat (destruct H as [<-|H]); try contradiction.

(** * Properties *)

(** ** The loader *)
Section Loader.

Context {num : Type} `{PyNum num}.

#[local] Abbreviation scalar := (@scalar num).
#[local] Abbreviation json := (@json num).

Lemma assoc_has_key (k : string) (members : list (string * json)) (v : json) :
  assoc k members = Some v -> has_key k members = true.
Proof.
  induction members as [|[k' v'] rest IH]; simpl; [discriminate|].
  rewrite (String.eqb_sym k' k).
  destruct (String.eqb k k'); simpl; auto.
Qed.

(** Over the keys of a dict that holds both arrays the loop never raises:
    it binds [dates] at the key [time] and [temps] at the key
    [temperature_2m_max], and leaves them alone at every other key. *)
Lemma for_loop_keys (daily_members : list (string * json)) (a b : json) :
  assoc "time" daily_members = Some a ->
  assoc "temperature_2m_max" daily_members = Some b ->
  forall (keys : list (string * json)) (env : locals),
    for_loop (JObj daily_members)
             (map (fun kv => SStr (fst kv)) keys) env
    = Ok (if has_key "time" keys then Some a else fst env,
          if has_key "temperature_2m_max" keys then Some b else snd env).
Proof.
  intros Ha Hb keys.
  induction keys as [|[k v] rest IH]; intros [d t]; simpl; [reflexivity|].
  unfold loop_body; simpl.
  destruct (String.eqb k "time") eqn:Ek.
  - apply String.eqb_eq in Ek; subst k; simpl.
    rewrite Ha; simpl. rewrite IH; simpl.
    destruct (has_key "time" rest), (has_key "temperature_2m_max" rest);
      reflexivity.
  - simpl. destruct (String.eqb k "temperature_2m_max") eqn:Et.
    + apply String.eqb_eq in Et; subst k; simpl.
      rewrite Hb; simpl. rewrite IH; simpl.
      destruct (has_key "time" rest), (has_key "temperature_2m_max" rest);
        reflexivity.
    + simpl. rewrite IH; reflexivity.
Qed.

Lemma convert_arrays (members daily_members : list (string * json))
      (dates temps : list scalar) :
  assoc "daily" members = Some (JObj daily_members) ->
  assoc "time" daily_members = Some (JArr dates) ->
  assoc "temperature_2m_max" daily_members = Some (JArr temps) ->
  _convert_json_to_list (Decodes (JObj members)) = Ok (combine dates temps).
Proof.
  intros Hd Ha Hb. unfold _convert_json_to_list; simpl.
  rewrite Hd; simpl.
  rewrite (for_loop_keys _ Ha Hb); simpl.
  rewrite (assoc_has_key _ _ Ha), (assoc_has_key _ _ Hb); reflexivity.
Qed.

End Loader.

(** ** The class *)
Section Properties.

Context {num : Type} `{PyNum num}.

Variable archive : nat -> request (num := num) -> http_result (num := num).
Variable geocoder : string -> option (num * num * scalar (num := num)).

#[local] Abbreviation scalar := (@scalar num).
#[local] Abbreviation json := (@json num).
#[local] Abbreviation body := (@body num).
#[local] Abbreviation point := (@point num).
#[local] Abbreviation HistoricalTemps := (@HistoricalTemps num).
#[local] Abbreviation state := (@state num).

(** [_load_temps], case by case. *)
Lemma load_temps_unfold (st : state) :
  _load_temps archive st =
  match archive (sent st) (request_for (self st)) with
  | Fails => (Raise RequestException, one_more st)
  | Response text =>
      match _convert_json_to_list text with
      | Ok l => (Ok l, loaded l st)
      | Raise e => (Raise e, one_more st)
      end
  end.
Proof.
  unfold _load_temps, bind, get_self, requests_get, lift, on_self, modify, ret.
  fold (request_for (self st)).
  destruct (archive (sent st) (request_for (self st))) as [|text]; simpl;
    [reflexivity|].
  destruct (_convert_json_to_list text); reflexivity.
Qed.

Lemma load_temps_ok (st : state) (l : list point) :
  fst (_load_temps archive st) = Ok l ->
  _load_temps archive st = (Ok l, loaded l st).
Proof.
  rewrite load_temps_unfold.
  destruct (archive (sent st) (request_for (self st))) as [|text]; simpl;
    [discriminate|].
  destruct (_convert_json_to_list text); simpl; congruence.
Qed.

Lemma load_temps_raise (st : state) (e : exn) :
  fst (_load_temps archive st) = Raise e ->
  _load_temps archive st = (Raise e, one_more st).
Proof.
  rewrite load_temps_unfold.
  destruct (archive (sent st) (request_for (self st))) as [|text]; simpl;
    [congruence|].
  destruct (_convert_json_to_list text); simpl; congruence.
Qed.

Lemma nth_error_combine (A B : Type) (l : list A) (l' : list B) :
  forall (i : nat) (a : A) (b : B),
    nth_error l i = Some a -> nth_error l' i = Some b ->
    nth_error (combine l l') i = Some (a, b).
Proof.
  revert l'; induction l as [|x l IH]; intros [|y l'] [|i] a b; simpl;
    try discriminate; [congruence | apply IH].
Qed.

(** C7.  When the body decodes to an object whose [daily] member is an
    object holding the arrays [time] and [temperature_2m_max], the loader
    returns, and stores, the two arrays zipped position by position: entry
    [i] pairs date [i] with temperature [i], in the order of the response. *)
Theorem load_temps_zips_arrays
        (st : state) (members daily_members : list (string * json))
        (dates temps : list scalar) :
  archive (sent st) (request_for (self st))
  = Response (Decodes (JObj members)) ->
  assoc "daily" members = Some (JObj daily_members) ->
  assoc "time" daily_members = Some (JArr dates) ->
  assoc "temperature_2m_max" daily_members = Some (JArr temps) ->
  _convert_json_to_list (Decodes (JObj members)) = Ok (combine dates temps)
  /\ _load_temps archive st
     = (Ok (combine dates temps), loaded (combine dates temps) st)
  /\ (forall (i : nat) (d t : scalar),
         nth_error dates i = Some d -> nth_error temps i = Some t ->
         nth_error (combine dates temps) i = Some (d, t)).
Proof.
  intros Hnet Hd Ha Hb.
  pose proof (convert_arrays _ Hd Ha Hb) as Hc.
  split; [exact Hc|]. split.
  - rewrite load_temps_unfold, Hnet, Hc; reflexivity.
  - intros i d t; apply nth_error_combine.
Qed.

(** What the conversion can raise is a data-format failure. *)
Lemma getitem_raises (v : json) (key : string) (e : exn) :
  getitem v key = Raise e -> DataFormatFailure e = true.
Proof.
  destruct v as [x|items|members]; simpl; try (intros [= <-]; reflexivity).
  destruct (assoc key members); [discriminate | intros [= <-]; reflexivity].
Qed.

Lemma iterate_raises (v : json) (e : exn) :
  iterate v = Raise e -> DataFormatFailure e = true.
Proof.
  destruct v as [[| | |s]|items|members]; simpl;
    try discriminate; intros [= <-]; reflexivity.
Qed.

Lemma getitem_item_raises (v : json) (x : scalar) (e : exn) :
  getitem_item v x = Raise e -> DataFormatFailure e = true.
Proof.
  destruct x; simpl; try (intros [= <-]; reflexivity). apply getitem_raises.
Qed.

Lemma loop_body_raises (d : json) (env : locals) (x : scalar) (e : exn) :
  loop_body d env x = Raise e -> DataFormatFailure e = true.
Proof.
  unfold loop_body.
  destruct (eq_str x "time"); simpl.
  - destruct (getitem_item d x) eqn:E1; simpl;
      [|intros [= <-]; exact (getitem_item_raises _ _ E1)].
    destruct (eq_str x "temperature_2m_max"); discriminate.
  - destruct (eq_str x "temperature_2m_max"); [|discriminate].
    destruct (getitem_item d x) eqn:E1; simpl;
      [discriminate | intros [= <-]; exact (getitem_item_raises _ _ E1)].
Qed.

Lemma for_loop_raises (d : json) (items : list scalar) :
  forall (env : locals) (e : exn),
    for_loop d items env = Raise e -> DataFormatFailure e = true.
Proof.
  induction items as [|x rest IH]; intros env e; simpl; [discriminate|].
  destruct (loop_body d env x) eqn:E; simpl.
  - apply IH.
  - intros [= <-]; exact (loop_body_raises _ _ _ E).
Qed.

Lemma convert_raises (data : body) (e : exn) :
  _convert_json_to_list data = Raise e -> DataFormatFailure e = true.
Proof.
  unfold _convert_json_to_list.
  destruct data as [|j]; simpl; [intros [= <-]; reflexivity|].
  destruct (getitem j "daily") as [d|e1] eqn:E1; simpl;
    [|intros [= <-]; exact (getitem_raises _ _ E1)].
  destruct (iterate d) as [items|e2] eqn:E2; simpl;
    [|intros [= <-]; exact (iterate_raises _ E2)].
  destruct (for_loop d items (None, None)) as [[dd tt]|e3] eqn:E3; simpl;
    [|intros [= <-]; exact (for_loop_raises _ _ _ E3)].
  destruct dd as [dv|]; simpl; [|intros [= <-]; reflexivity].
  destruct tt as [tv|]; simpl; [|intros [= <-]; reflexivity].
  destruct (iterate dv) as [ds|e4] eqn:E4; simpl;
    [|intros [= <-]; exact (iterate_raises _ E4)].
  destruct (iterate tv) as [ts|e5] eqn:E5; simpl;
    [discriminate | intros [= <-]; exact (iterate_raises _ E5)].
Qed.

(** A load fails in the transport or in the format of the answer; it never
    raises the plain [LookupError] that the setters raise themselves. *)
Lemma load_temps_raises (st : state) (e : exn) :
  fst (_load_temps archive st) = Raise e ->
  (TransportFailure e || DataFormatFailure e = true) /\ e <> LookupError.
Proof.
  rewrite load_temps_unfold.
  destruct (archive (sent st) (request_for (self st))) as [|text]; simpl.
  - intros [= <-]; split; [reflexivity | discriminate].
  - destruct (_convert_json_to_list text) as [l|e'] eqn:E; simpl;
      [discriminate|]. intros [= <-].
    pose proof (convert_raises _ E) as D. split.
    + rewrite D; apply orb_true_r.
    + intros ->; discriminate.
Qed.

(** C6, as the code has it.  A body that does not decode raises
    [JSONDecodeError] and an object without the member [daily] raises
    [KeyError]; both are data-format failures, nothing is stored and the
    cached list stays as it was.  Arrays of different lengths do not fail:
    the load returns and stores the pairs up to the length of the shorter
    array. *)
Theorem load_temps_format_failures (st : state) :
  (archive (sent st) (request_for (self st)) = Response Malformed ->
   _load_temps archive st = (Raise JSONDecodeError, one_more st))
  /\ (forall members : list (string * json),
         archive (sent st) (request_for (self st))
         = Response (Decodes (JObj members)) ->
         assoc "daily" members = None ->
         _load_temps archive st = (Raise KeyError, one_more st))
  /\ DataFormatFailure JSONDecodeError = true
  /\ DataFormatFailure KeyError = true
  /\ _temp_list (self (one_more st)) = _temp_list (self st)
  /\ (forall (members daily_members : list (string * json))
             (dates temps : list scalar),
         archive (sent st) (request_for (self st))
         = Response (Decodes (JObj members)) ->
         assoc "daily" members = Some (JObj daily_members) ->
         assoc "time" daily_members = Some (JArr dates) ->
         assoc "temperature_2m_max" daily_members = Some (JArr temps) ->
         let n := Nat.min (List.length dates) (List.length temps) in
         _load_temps archive st
         = (Ok (combine (firstn n dates) (firstn n temps)),
            loaded (combine (firstn n dates) (firstn n temps)) st)
         /\ List.length (combine (firstn n dates) (firstn n temps)) = n).
Proof.
  split; [|split; [|split; [|split; [|split]]]]; try reflexivity.
  - intros Hnet. rewrite load_temps_unfold, Hnet; reflexivity.
  - intros members Hnet Hd. rewrite load_temps_unfold, Hnet.
    unfold _convert_json_to_list; simpl. rewrite Hd; reflexivity.
  - intros members daily_members dates temps Hnet Hd Ha Hb n. split.
    + rewrite <- combine_firstn.
      destruct (load_temps_zips_arrays st Hnet Hd Ha Hb) as (_ & Hl & _).
      rewrite Hl, firstn_all2; [reflexivity|].
      rewrite length_combine; apply Nat.le_refl.
    + rewrite length_combine, !length_firstn. subst n; lia.
Qed.

(** ** The setters *)

Lemma set_start_field_restore (start : string) (o : HistoricalTemps) :
  set_start_field (_start o) (set_start_field start o) = o.
Proof. destruct o; reflexivity. Qed.

Lemma set_end_field_restore (end_ : string) (o : HistoricalTemps) :
  set_end_field (_end o) (set_end_field end_ o) = o.
Proof. destruct o; reflexivity. Qed.

(** A setter, case by case: the first reload, and after its failure the
    reload on the object as it was before the call, one request later. *)
Lemma set_start_unfold (start : string) (st : state) :
  set_start archive start st =
  match _load_temps archive (with_start start st) with
  | (Ok _, st1) => (Ok tt, st1)
  | (Raise _, _) =>
      match _load_temps archive (one_more st) with
      | (Ok _, st2) => (Raise LookupError, st2)
      | (Raise e, st2) => (Raise e, st2)
      end
  end.
Proof.
  unfold set_start, bind, get_self, on_self, modify, try_except, ret, raise.
  simpl. fold (with_start start st).
  destruct (_load_temps archive (with_start start st)) as [[l|e] st1] eqn:E;
    [reflexivity|].
  pose proof (load_temps_raise (with_start start st) (e := e)) as R.
  rewrite E in R; specialize (R eq_refl); injection R as ->.
  simpl. rewrite set_start_field_restore. fold (one_more st).
  destruct (_load_temps archive (one_more st)) as [[l|e'] st2]; reflexivity.
Qed.

Lemma set_end_unfold (end_ : string) (st : state) :
  set_end archive end_ st =
  match _load_temps archive (with_end end_ st) with
  | (Ok _, st1) => (Ok tt, st1)
  | (Raise _, _) =>
      match _load_temps archive (one_more st) with
      | (Ok _, st2) => (Raise LookupError, st2)
      | (Raise e, st2) => (Raise e, st2)
      end
  end.
Proof.
  unfold set_end, bind, get_self, on_self, modify, try_except, ret, raise.
  simpl. fold (with_end end_ st).
  destruct (_load_temps archive (with_end end_ st)) as [[l|e] st1] eqn:E;
    [reflexivity|].
  pose proof (load_temps_raise (with_end end_ st) (e := e)) as R.
  rewrite E in R; specialize (R eq_refl); injection R as ->.
  simpl. rewrite set_end_field_restore. fold (one_more st).
  destruct (_load_temps archive (one_more st)) as [[l|e'] st2]; reflexivity.
Qed.

Lemma set_temp_list_same (o : HistoricalTemps) :
  set_temp_list (_temp_list o) o = o.
Proof. destruct o; reflexivity. Qed.

(** C1, as the code has it.  When the reload for the new start (or end)
    date fails and the reload that follows the rollback succeeds, the setter
    raises [LookupError], the date fields are those from before the call, and
    the cached list is the one that second reload fetched for them; it is the
    list from before the call when the archive answered with the same
    series. *)
Theorem setters_roll_back (st : state) :
  (forall (start : string) (e : exn) (reloaded : list point),
      fst (_load_temps archive (with_start start st)) = Raise e ->
      fst (_load_temps archive (one_more st)) = Ok reloaded ->
      set_start archive start st
      = (Raise LookupError, loaded reloaded (one_more st))
      /\ _start (self (loaded reloaded (one_more st))) = _start (self st)
      /\ _end (self (loaded reloaded (one_more st))) = _end (self st)
      /\ _temp_list (self (loaded reloaded (one_more st))) = reloaded
      /\ (reloaded = _temp_list (self st) ->
          self (loaded reloaded (one_more st)) = self st))
  /\ (forall (end_ : string) (e : exn) (reloaded : list point),
         fst (_load_temps archive (with_end end_ st)) = Raise e ->
         fst (_load_temps archive (one_more st)) = Ok reloaded ->
         set_end archive end_ st
         = (Raise LookupError, loaded reloaded (one_more st))
         /\ _start (self (loaded reloaded (one_more st))) = _start (self st)
         /\ _end (self (loaded reloaded (one_more st))) = _end (self st)
         /\ _temp_list (self (loaded reloaded (one_more st))) = reloaded
         /\ (reloaded = _temp_list (self st) ->
             self (loaded reloaded (one_more st)) = self st)).
Proof.
  split; intros new e reloaded H1 H2;
    (split; [|repeat split; try reflexivity;
              intros ->; simpl; apply set_temp_list_same]).
  - rewrite set_start_unfold.
    rewrite (load_temps_raise _ H1), (load_temps_ok _ H2); reflexivity.
  - rewrite set_end_unfold.
    rewrite (load_temps_raise _ H1), (load_temps_ok _ H2); reflexivity.
Qed.

(** C10, as the code has it.  When the reload that follows the rollback
    fails too, the setter propagates the exception of that second reload.
    It is a transport failure or a data-format failure and never the plain
    [LookupError] that the setter raises itself; it is still a
    [LookupFailure] in one case, that of [KeyError], the exception of an
    answer without [daily], which is a subclass of [LookupError].  The
    object is left as it was before the call, date fields and cached list
    alike, two requests later. *)
Theorem setters_failed_rollback (st : state) :
  (forall (start : string) (e1 e2 : exn),
      fst (_load_temps archive (with_start start st)) = Raise e1 ->
      fst (_load_temps archive (one_more st)) = Raise e2 ->
      set_start archive start st = (Raise e2, one_more (one_more st))
      /\ (TransportFailure e2 || DataFormatFailure e2 = true)
      /\ e2 <> LookupError
      /\ (LookupFailure e2 = true <-> e2 = KeyError)
      /\ self (one_more (one_more st)) = self st)
  /\ (forall (end_ : string) (e1 e2 : exn),
         fst (_load_temps archive (with_end end_ st)) = Raise e1 ->
         fst (_load_temps archive (one_more st)) = Raise e2 ->
         set_end archive end_ st = (Raise e2, one_more (one_more st))
         /\ (TransportFailure e2 || DataFormatFailure e2 = true)
         /\ e2 <> LookupError
         /\ (LookupFailure e2 = true <-> e2 = KeyError)
         /\ self (one_more (one_more st)) = self st).
Proof.
  assert (Hkind : forall e2 : exn,
             fst (_load_temps archive (one_more st)) = Raise e2 ->
             (TransportFailure e2 || DataFormatFailure e2 = true)
             /\ e2 <> LookupError
             /\ (LookupFailure e2 = true <-> e2 = KeyError)
             /\ self (one_more (one_more st)) = self st).
  { intros e2 H2. destruct (load_temps_raises _ H2) as [Hk Hnl].
    split; [exact Hk|]. split; [exact Hnl|]. split; [|reflexivity].
    split.
    - intros Hl. destruct e2; try discriminate Hl;
        [exfalso; apply Hnl; reflexivity | reflexivity].
    - intros ->; reflexivity. }
  split; intros new e1 e2 H1 H2; (split; [|exact (Hkind e2 H2)]).
  - rewrite set_start_unfold.
    rewrite (load_temps_raise _ H1), (load_temps_raise _ H2); reflexivity.
  - rewrite set_end_unfold.
    rewrite (load_temps_raise _ H1), (load_temps_raise _ H2); reflexivity.
Qed.

(** ** The queries *)

(** [average_temp], case by case. *)
Lemma average_temp_unfold (st : state) :
  average_temp archive st =
  match _load_temps archive st with
  | (Raise e, st') => (Raise e, st')
  | (Ok temperature_list, st') =>
      match sum_loop temperature_list num_zero with
      | Raise e => (Raise e, st')
      | Ok total_temps =>
          (py_div_len total_temps (List.length (_temp_list (self st'))), st')
      end
  end.
Proof.
  unfold average_temp, bind, lift, get_self, ret.
  destruct (_load_temps archive st) as [[l|e] st']; [|reflexivity].
  destruct (sum_loop l num_zero) as [total|e]; [|reflexivity].
  destruct (py_div_len total (List.length (_temp_list (self st'))));
    reflexivity.
Qed.

(** Over numbers the summing loop is the left fold of [+] from the running
    total. *)
Lemma sum_loop_numbers (l : list point) :
  forallb is_numeric l = true ->
  forall total : num,
    sum_loop l total = Ok (fold_left num_add (temperatures l) total).
Proof.
  induction l as [|p l IH]; simpl; intros Hn total; [reflexivity|].
  apply andb_true_iff in Hn as [Hp Hl].
  unfold is_numeric, temperature in Hp. unfold py_add, temperature.
  destruct (as_number (snd p)) as [x|]; [|discriminate]; simpl.
  apply IH, Hl.
Qed.

(** C2, as the code has it.  [average_temp] reloads the series and returns
    the sum of the reloaded temperatures divided by the length of the
    reloaded series, which by then is the cached one. *)
Theorem average_temp_over_reloaded (st : state) (reloaded : list point) :
  fst (_load_temps archive st) = Ok reloaded ->
  forallb is_numeric reloaded = true ->
  reloaded <> [] ->
  average_temp archive st
  = (Ok (num_truediv (fold_left num_add (temperatures reloaded) num_zero)
                     (num_of_len (List.length reloaded))),
     loaded reloaded st).
Proof.
  intros Hl Hn Hne.
  rewrite average_temp_unfold, (load_temps_ok _ Hl).
  rewrite (sum_loop_numbers _ Hn); simpl.
  destruct reloaded; [contradiction | reflexivity].
Qed.

(** C9.  [average_temp] overwrites the cached list with the reloaded one
    before it divides: once the reload has returned, the stored list is the
    reloaded list, whatever comes of the sum and the division, and a returned
    average is the sum over the length of the reloaded list.  [extreme_days]
    and [top_x_days] leave the object, and the session, as they were. *)
Theorem average_temp_mutates_queries_do_not (st : state) :
  (forall reloaded : list point,
      fst (_load_temps archive st) = Ok reloaded ->
      snd (average_temp archive st) = loaded reloaded st
      /\ _temp_list (self (snd (average_temp archive st))) = reloaded
      /\ (forall avg : num,
             fst (average_temp archive st) = Ok avg ->
             exists total : num,
               sum_loop reloaded num_zero = Ok total
               /\ avg = num_truediv total
                                    (num_of_len (List.length reloaded))))
  /\ (forall threshold : num, snd (extreme_days threshold st) = st)
  /\ (forall num_days : Z, snd (top_x_days num_days st) = st).
Proof.
  split; [|split].
  - intros reloaded Hl.
    rewrite average_temp_unfold, (load_temps_ok _ Hl).
    destruct (sum_loop reloaded num_zero) as [total|e] eqn:Es; simpl.
    + repeat split.
      destruct reloaded as [|p l]; simpl; [discriminate|].
      intros avg [= <-]. exists total; split; reflexivity.
    + repeat split. discriminate.
  - intros threshold. unfold extreme_days, bind, get_self, lift, ret.
    destruct (comprehension (_temp_list (self st)) threshold); reflexivity.
  - intros num_days. unfold top_x_days, bind, get_self, lift, ret.
    destruct (sorted_reverse (_temp_list (self st))); reflexivity.
Qed.

Lemma comprehension_filter (threshold : num) (l : list point) :
  forallb is_numeric l = true ->
  comprehension l threshold = Ok (filter (above threshold) l).
Proof.
  induction l as [|p l IH]; simpl; intros Hn; [reflexivity|].
  apply andb_true_iff in Hn as [Hp Hl].
  rewrite (IH Hl). unfold above, py_gt, is_numeric, temperature in *.
  destruct (as_number (snd p)) as [x|]; [|discriminate]; simpl.
  destruct (num_lt threshold x); reflexivity.
Qed.

(** C4.  On a cached series whose temperatures are numbers, [extreme_days]
    returns the entries whose temperature is strictly above the threshold,
    in the order of the series, and changes nothing: an entry is in the
    result exactly when it is in the series and above the threshold; the
    result is empty when no entry is above it and the whole series when every
    entry is. *)
Theorem extreme_days_filters (st : state) (threshold : num) :
  forallb is_numeric (_temp_list (self st)) = true ->
  let series := _temp_list (self st) in
  extreme_days threshold st = (Ok (filter (above threshold) series), st)
  /\ (forall p : point,
         In p (filter (above threshold) series)
         <-> In p series /\ above threshold p = true)
  /\ ((forall p : point, In p series -> above threshold p = false) ->
      filter (above threshold) series = [])
  /\ ((forall p : point, In p series -> above threshold p = true) ->
      filter (above threshold) series = series).
Proof.
  intros Hn series. split; [|split; [|split]].
  - unfold extreme_days, bind, get_self, lift, ret.
    subst series. rewrite (comprehension_filter threshold _ Hn); reflexivity.
  - intros p; apply filter_In.
  - clear Hn. induction series as [|p l IH]; simpl; intros Hall;
      [reflexivity|].
    rewrite (Hall p (or_introl eq_refl)). apply IH; intros q Hq.
    apply Hall; right; exact Hq.
  - clear Hn. induction series as [|p l IH]; simpl; intros Hall;
      [reflexivity|].
    rewrite (Hall p (or_introl eq_refl)). f_equal; apply IH; intros q Hq.
    apply Hall; right; exact Hq.
Qed.

(** ** The constructor *)

(** The guard of [__init__] reads the second component of the tuple. *)
Lemma init_guard (zip_code start end_ : string) (k : nat) :
  num_isnan (snd (fst (zip_to_loc_info geocoder zip_code))) = true ->
  __init__ archive geocoder zip_code start end_ k = (Raise LookupError, k).
Proof. unfold __init__; intros ->; reflexivity. Qed.

(** C3.  For a zip code the geocoder has no match for, the row it answers
    with has a not-a-number latitude, and [__init__] raises [LookupError]:
    no object is returned and no request is sent to the archive. *)
Theorem init_unknown_zip (zip_code start end_ : string) (k : nat) :
  num_isnan num_nan = true ->
  geocoder zip_code = None ->
  num_isnan (fst (fst (zip_to_loc_info geocoder zip_code))) = true
  /\ __init__ archive geocoder zip_code start end_ k = (Raise LookupError, k)
  /\ LookupFailure LookupError = true
  /\ (forall o : HistoricalTemps,
         fst (__init__ archive geocoder zip_code start end_ k) <> Ok o).
Proof.
  intros Hnan Hgeo.
  assert (Hrow : zip_to_loc_info geocoder zip_code
                 = (num_nan, num_nan, SNum num_nan)).
  { unfold zip_to_loc_info, query_postal_code; rewrite Hgeo; reflexivity. }
  assert (Hinit : __init__ archive geocoder zip_code start end_ k
                  = (Raise LookupError, k)).
  { apply init_guard; rewrite Hrow; exact Hnan. }
  split; [rewrite Hrow; exact Hnan|].
  split; [exact Hinit|]. split; [reflexivity|].
  intros o; rewrite Hinit; discriminate.
Qed.

(** ** Comparing two datasets *)

Lemma average_temp_loc_name (st : state) :
  _loc_name (self (snd (average_temp archive st))) = _loc_name (self st).
Proof.
  rewrite average_temp_unfold, load_temps_unfold.
  destruct (archive (sent st) (request_for (self st))) as [|text];
    [reflexivity|].
  destruct (_convert_json_to_list text) as [l|e]; [|reflexivity].
  destruct (sum_loop l num_zero); reflexivity.
Qed.

(** C8.  With both datasets loaded, when the reload of each returns a
    series of numbers that is not empty, the comparison returns and prints,
    for each dataset in turn, the line that names its location and the
    average of its reloaded series, the sum of the temperatures over their
    number, rounded to two decimals.  With either dataset absent it prints
    the guidance line and does nothing else: no request is sent and no
    dataset changes. *)
Theorem compare_average_temps_prints (c : console) :
  (forall (one two : HistoricalTemps) (l1 l2 : list point),
      dataset_one c = Some one ->
      dataset_two c = Some two ->
      fst (_load_temps archive {| self := one; sent := requests c |})
      = Ok l1 ->
      fst (_load_temps archive {| self := two; sent := S (requests c) |})
      = Ok l2 ->
      forallb is_numeric l1 = true -> l1 <> [] ->
      forallb is_numeric l2 = true -> l2 <> [] ->
      fst (compare_average_temps archive c) = Ok tt
      /\ printed (snd (compare_average_temps archive c))
         = (printed c
            ++ [[Text "The average maximum temperatures for ";
                 Value (_loc_name one); Text " was ";
                 Rounded (num_truediv
                            (fold_left num_add (temperatures l1) num_zero)
                            (num_of_len (List.length l1))) 2;
                 Text " degrees Celsius."];
                [Text "The average maximum temperatures for ";
                 Value (_loc_name two); Text " was ";
                 Rounded (num_truediv
                            (fold_left num_add (temperatures l2) num_zero)
                            (num_of_len (List.length l2))) 2;
                 Text " degrees Celsius."]])%list)
  /\ (dataset_one c = None \/ dataset_two c = None ->
      compare_average_temps archive c
      = (Ok tt,
         {| dataset_one := dataset_one c; dataset_two := dataset_two c;
            requests := requests c;
            printed := (printed c
                        ++ [[Text "Please load two datasets first"]])%list
         |})).
Proof.
  split.
  - intros one two l1 l2 H1 H2 L1 L2 N1 E1 N2 E2.
    assert (A1 : average_temp archive {| self := one; sent := requests c |}
                 = (Ok (mean l1),
                    loaded l1 {| self := one; sent := requests c |})).
    { rewrite average_temp_unfold, (load_temps_ok _ L1).
      rewrite (sum_loop_numbers _ N1); simpl.
      destruct l1; [contradiction | reflexivity]. }
    assert (A2 : average_temp archive
                   {| self := two; sent := S (requests c) |}
                 = (Ok (mean l2),
                    loaded l2 {| self := two; sent := S (requests c) |})).
    { rewrite average_temp_unfold, (load_temps_ok _ L2).
      rewrite (sum_loop_numbers _ N2); simpl.
      destruct l2; [contradiction | reflexivity]. }
    unfold compare_average_temps. rewrite H1, H2, A1.
    cbn [loaded self sent]. rewrite A2.
    split; reflexivity.
  - unfold compare_average_temps.
    intros [Hn|Hn]; rewrite Hn; [reflexivity|].
    destruct (dataset_one c); reflexivity.
Qed.

(** ** Sorting *)

Lemma py_lt_numeric (x y : point) :
  is_numeric x = true -> is_numeric y = true ->
  py_lt (snd x) (snd y) = Ok (below x y).
Proof.
  unfold is_numeric, below, temperature, py_lt.
  destruct (snd x), (snd y); simpl; intros; try discriminate; reflexivity.
Qed.

Lemma insert_number_perm (x : point) (s : list point) :
  Permutation (insert_number x s) (x :: s).
Proof.
  induction s as [|y s IH]; simpl; [reflexivity|].
  destruct (below y x); [|reflexivity].
  rewrite IH; apply perm_swap.
Qed.

Lemma sort_numbers_perm (l : list point) : Permutation (sort_numbers l) l.
Proof.
  induction l as [|x l IH]; simpl; [reflexivity|].
  rewrite insert_number_perm; constructor; exact IH.
Qed.

Lemma forallb_perm (f : point -> bool) (l l' : list point) :
  Permutation l l' -> forallb f l = true -> forallb f l' = true.
Proof.
  intros P; rewrite !forallb_forall; intros Hf p Hp.
  apply Hf, (Permutation_in _ (Permutation_sym P) Hp).
Qed.

Lemma insert_numeric (x : point) (s : list point) :
  is_numeric x = true -> forallb is_numeric s = true ->
  insert x s = Ok (insert_number x s).
Proof.
  intros Hx; induction s as [|y s IH]; simpl; intros Hs; [reflexivity|].
  apply andb_true_iff in Hs as [Hy Hs].
  rewrite (py_lt_numeric _ _ Hy Hx); simpl.
  destruct (below y x); [|reflexivity].
  rewrite (IH Hs); reflexivity.
Qed.

Lemma sort_asc_numeric (l : list point) :
  forallb is_numeric l = true -> sort_asc l = Ok (sort_numbers l).
Proof.
  induction l as [|x l IH]; simpl; intros Hl; [reflexivity|].
  apply andb_true_iff in Hl as [Hx Hl].
  rewrite (IH Hl); simpl. apply insert_numeric; [exact Hx|].
  exact (forallb_perm is_numeric (Permutation_sym (sort_numbers_perm l)) Hl).
Qed.

Section Order.

(** The entries being sorted, and the laws of [<] on them. *)
Variable dom : list point.
Hypothesis dom_ordered : ordered_by_lt dom.

Lemma insert_number_ascending (x : point) (s : list point) :
  In x dom -> incl s dom ->
  ascending s -> ascending (insert_number x s).
Proof.
  destruct dom_ordered as [asym negtrans].
  intros Hx; induction s as [|y s IH]; simpl; intros Hs Hsorted.
  - repeat constructor.
  - apply StronglySorted_inv in Hsorted as [Hsorted Hy].
    assert (Hyd : In y dom) by (apply Hs; left; reflexivity).
    assert (Hsd : incl s dom) by (intros p Hp; apply Hs; right; exact Hp).
    destruct (below y x) eqn:E.
    + constructor; [apply IH; assumption|].
      apply (Permutation_Forall (Permutation_sym (insert_number_perm x s))).
      constructor; [apply asym; assumption | exact Hy].
    + constructor; [constructor; assumption|].
      constructor; [exact E|].
      rewrite Forall_forall in *; intros b Hb.
      apply (negtrans b y x); auto.
Qed.

Lemma sort_numbers_ascending (l : list point) :
  incl l dom -> ascending (sort_numbers l).
Proof.
  induction l as [|x l IH]; simpl; intros Hl; [constructor|].
  apply insert_number_ascending.
  - apply Hl; left; reflexivity.
  - intros p Hp. apply Hl; right.
    exact (Permutation_in _ (sort_numbers_perm l) Hp).
  - apply IH; intros p Hp; apply Hl; right; exact Hp.
Qed.

(** Inserting an entry does not move it past an entry it ties with. *)
Lemma insert_number_stable (q x : point) (s : list point) :
  In q dom -> In x dom -> incl s dom ->
  filter (tie q) (insert_number x s) = filter (tie q) (x :: s).
Proof.
  destruct dom_ordered as [asym negtrans].
  intros Hq Hx; induction s as [|y s IH]; intros Hs; [reflexivity|].
  assert (Hyd : In y dom) by (apply Hs; left; reflexivity).
  assert (Hsd : incl s dom) by (intros p Hp; apply Hs; right; exact Hp).
  simpl. destruct (below y x) eqn:E; [|reflexivity].
  simpl. rewrite (IH Hsd); simpl.
  destruct (tie q x) eqn:Tx; [|reflexivity].
  assert (Ty : tie q y = false).
  { unfold tie in *. apply andb_true_iff in Tx as [_ Tx].
    apply negb_true_iff in Tx.
    destruct (below y q) eqn:Eyq; [reflexivity|]. simpl.
    rewrite (negtrans y q x Hyd Hq Hx Eyq Tx) in E; discriminate. }
  rewrite Ty; reflexivity.
Qed.

Lemma sort_numbers_stable (q : point) (l : list point) :
  In q dom -> incl l dom ->
  filter (tie q) (sort_numbers l) = filter (tie q) l.
Proof.
  intros Hq; induction l as [|x l IH]; simpl; intros Hl; [reflexivity|].
  rewrite insert_number_stable.
  - simpl. rewrite IH; [reflexivity|].
    intros p Hp; apply Hl; right; exact Hp.
  - exact Hq.
  - apply Hl; left; reflexivity.
  - intros p Hp. apply Hl; right.
    exact (Permutation_in _ (sort_numbers_perm l) Hp).
Qed.

End Order.

Lemma sorted_app (R : point -> point -> Prop) (l1 l2 : list point) :
  StronglySorted R l1 -> StronglySorted R l2 ->
  (forall a b : point, In a l1 -> In b l2 -> R a b) ->
  StronglySorted R (l1 ++ l2).
Proof.
  induction l1 as [|x l1 IH]; simpl; intros S1 S2 HR; [exact S2|].
  apply StronglySorted_inv in S1 as [S1 Hx].
  constructor.
  - apply IH; auto.
  - apply Forall_app; split; [exact Hx|].
    apply Forall_forall; intros b Hb; apply HR; auto.
Qed.

Lemma sorted_rev (R : point -> point -> Prop) (l : list point) :
  StronglySorted R l -> StronglySorted (fun a b => R b a) (rev l).
Proof.
  induction l as [|x l IH]; simpl; intros S; [constructor|].
  apply StronglySorted_inv in S as [S Hx].
  apply sorted_app; [apply IH, S | repeat constructor |].
  intros a b Ha [<-|[]].
  rewrite Forall_forall in Hx. apply Hx, in_rev, Ha.
Qed.

(** On numbers [sorted(..., reverse=True)] does not raise. *)
Lemma sorted_reverse_numeric (l : list point) :
  forallb is_numeric l = true ->
  sorted_reverse l = Ok (rev (sort_numbers (rev l))).
Proof.
  intros Hl. unfold sorted_reverse.
  rewrite sort_asc_numeric; [reflexivity|].
  exact (forallb_perm is_numeric (Permutation_rev l) Hl).
Qed.

(** C5.  On a cached series whose temperatures are numbers that [<] orders,
    and for a count [num_days] that is not negative, [top_x_days] returns
    the first [num_days] entries of the series sorted by descending
    temperature, or all of them when the series is shorter: the result
    followed by the entries left out is a rearrangement of the series in
    which no entry is below a later one, and in which entries that tie keep
    the order they have in the series.  The object is unchanged. *)
Theorem top_x_days_sorted_stable (st : state) (num_days : Z) :
  let series := _temp_list (self st) in
  forallb is_numeric series = true ->
  ordered_by_lt series ->
  (0 <= num_days)%Z ->
  exists top rest : list point,
    top_x_days num_days st = (Ok top, st)
    /\ List.length top = Nat.min (Z.to_nat num_days) (List.length series)
    /\ (List.length series <= Z.to_nat num_days -> rest = [])
    /\ Permutation (top ++ rest) series
    /\ descending (top ++ rest)
    /\ (forall q : point,
           In q series ->
           filter (tie q) (top ++ rest) = filter (tie q) series).
Proof.
  intros series Hnum Hord Hn.
  set (sorted := rev (sort_numbers (rev series))).
  assert (Hperm : Permutation sorted series).
  { unfold sorted. rewrite <- Permutation_rev, sort_numbers_perm.
    symmetry; apply Permutation_rev. }
  assert (Hincl : incl (rev series) series).
  { intros p Hp; apply in_rev; exact Hp. }
  exists (firstn (Z.to_nat num_days) sorted),
         (skipn (Z.to_nat num_days) sorted).
  rewrite firstn_skipn. repeat split.
  - unfold top_x_days, bind, get_self, lift, ret. fold series.
    rewrite (sorted_reverse_numeric _ Hnum). fold sorted.
    unfold slice_to. destruct (Z.ltb_spec num_days 0); [lia | reflexivity].
  - rewrite length_firstn, (Permutation_length Hperm); reflexivity.
  - intros Hlen. apply skipn_all2.
    rewrite (Permutation_length Hperm); exact Hlen.
  - exact Hperm.
  - unfold descending, sorted.
    apply (sorted_rev (R := fun a b => below b a = false)).
    exact (sort_numbers_ascending Hord Hincl).
  - intros q Hq. unfold sorted.
    rewrite filter_rev, (sort_numbers_stable Hord _ Hq Hincl), filter_rev.
    apply rev_involutive.
Qed.

End Properties.

(** * The properties on concrete sessions *)

(** The three cached temperatures 20, 30, 20 are ordered by [<]. *)
Lemma three_days_ordered : ordered_by_lt (_temp_list Demo.three_days).
Proof.
  split.
  - intros a b Ha Hb. each_entry Ha; each_entry Hb; decide_order.
  - intros a b c Ha Hb Hc.
    each_entry Ha; each_entry Hb; each_entry Hc; decide_order.
Qed.

(** ** C1 *)

(** With the archive out of reach both reloads fail and what the setter
    raises is the transport failure; with an archive that has revised its
    value the setter raises [LookupError] and the cached list is the revised
    one, not the one from before the call. *)
Lemma setters_roll_back_counterexample :
  let st := Demo.session Demo.mountain_view in
  fst (_load_temps Demo.archive_down (with_start "2020-01-02" st))
  = Raise RequestException
  /\ fst (set_start Demo.archive_down "2020-01-02" st)
     = Raise RequestException
  /\ fst (set_start Demo.archive_down "2020-01-02" st) <> Raise LookupError
  /\ fst (_load_temps Demo.archive_revised (with_start "2020-13-01" st))
     = Raise KeyError
  /\ fst (set_start Demo.archive_revised "2020-13-01" st) = Raise LookupError
  /\ _temp_list (self (snd (set_start Demo.archive_revised "2020-13-01" st)))
     = [Demo.day "2020-01-01" 31]
  /\ _temp_list (self (snd (set_start Demo.archive_revised "2020-13-01" st)))
     <> _temp_list (self st).
Proof.
  repeat split; try evaluate.
  - vm_compute; discriminate.
  - vm_compute. intros E.
    apply (f_equal (fun l => match l with
                             | (_, SNum x) :: _ => PrimFloat.eqb x 31
                             | _ => false
                             end)) in E.
    vm_compute in E; discriminate.
Qed.

Lemma setters_roll_back_witness :
  let st := Demo.session Demo.mountain_view in
  set_start Demo.archive_steady "2020-13-01" st
  = (Raise LookupError, {| self := Demo.mountain_view; sent := 2 |})
  /\ set_end Demo.archive_steady "2020-01-32" st
     = (Raise LookupError, {| self := Demo.mountain_view; sent := 2 |}).
Proof.
  intros st.
  destruct (setters_roll_back Demo.archive_steady st) as [Hstart Hend].
  split.
  - refine (proj1 (Hstart "2020-13-01" KeyError
                          [Demo.day "2020-01-01" 30] _ _)); evaluate.
  - refine (proj1 (Hend "2020-01-32" KeyError
                        [Demo.day "2020-01-01" 30] _ _)); evaluate.
Defined.

(** ** C10 *)

(** An archive that answers every request with its error body: both
    reloads raise [KeyError], the setter raises [KeyError], and that is a
    [LookupFailure]. *)
Lemma setters_failed_rollback_counterexample :
  let st := Demo.session Demo.mountain_view in
  fst (_load_temps Demo.archive_rejecting (with_start "2020-13-01" st))
  = Raise KeyError
  /\ fst (_load_temps Demo.archive_rejecting (one_more st)) = Raise KeyError
  /\ set_start Demo.archive_rejecting "2020-13-01" st
     = (Raise KeyError, {| self := Demo.mountain_view; sent := 2 |})
  /\ LookupFailure KeyError = true
  /\ is_LookupError KeyError = true.
Proof. repeat split; evaluate. Qed.

Lemma setters_failed_rollback_witness :
  let st := Demo.session Demo.mountain_view in
  set_start Demo.archive_lost "2020-13-01" st
  = (Raise RequestException, {| self := Demo.mountain_view; sent := 2 |})
  /\ set_end Demo.archive_down "2020-01-02" st
     = (Raise RequestException, {| self := Demo.mountain_view; sent := 2 |})
  /\ set_start Demo.archive_rejecting "2020-13-01" st
     = (Raise KeyError, {| self := Demo.mountain_view; sent := 2 |})
  /\ (LookupFailure KeyError = true <-> KeyError = KeyError).
Proof.
  intros st.
  destruct (setters_failed_rollback Demo.archive_lost st) as [Hstart _].
  destruct (setters_failed_rollback Demo.archive_down st) as [_ Hend].
  destruct (setters_failed_rollback Demo.archive_rejecting st) as [Hkey _].
  split; [|split; [|split]].
  - refine (proj1 (Hstart "2020-13-01" KeyError RequestException _ _));
      evaluate.
  - refine (proj1 (Hend "2020-01-02" RequestException RequestException _ _));
      evaluate.
  - refine (proj1 (Hkey "2020-13-01" KeyError KeyError _ _)); evaluate.
  - refine (proj1 (proj2 (proj2 (proj2
              (Hkey "2020-13-01" KeyError KeyError _ _))))); evaluate.
Defined.

(** ** C2 and C9 *)

(** One entry is cached and the reload brings two, 10 and 20: the average
    is 30 / 2, not 30 / 1. *)
Lemma average_temp_old_length_counterexample :
  let st := Demo.session Demo.mountain_view in
  List.length (_temp_list (self st)) = 1
  /\ fst (_load_temps Demo.archive_two_days st)
     = Ok [Demo.day "2020-01-01" 10; Demo.day "2020-01-02" 20]
  /\ fst (average_temp Demo.archive_two_days st) = Ok 15%float
  /\ fst (average_temp Demo.archive_two_days st)
     <> Ok (num_truediv (num_add (num_add num_zero 10%float) 20%float)
                        (num_of_len (List.length (_temp_list (self st))))).
Proof.
  repeat split; try evaluate.
  vm_compute. intros E.
  apply (f_equal (fun r => match r with
                           | Ok x => PrimFloat.eqb x 15
                           | Raise _ => false
                           end)) in E.
  vm_compute in E; discriminate.
Qed.

Lemma average_temp_over_reloaded_witness :
  average_temp Demo.archive_two_days (Demo.session Demo.mountain_view)
  = (Ok 15%float,
     loaded [Demo.day "2020-01-01" 10; Demo.day "2020-01-02" 20]
            (Demo.session Demo.mountain_view)).
Proof.
  refine (average_temp_over_reloaded Demo.archive_two_days
            (Demo.session Demo.mountain_view)
            (reloaded := [Demo.day "2020-01-01" 10; Demo.day "2020-01-02" 20])
            _ _ _);
    [evaluate | evaluate | discriminate].
Defined.

Lemma average_temp_mutates_queries_do_not_witness :
  let st := Demo.session Demo.mountain_view in
  _temp_list (self (snd (average_temp Demo.archive_two_days st)))
  = [Demo.day "2020-01-01" 10; Demo.day "2020-01-02" 20]
  /\ snd (extreme_days 25%float st) = st
  /\ snd (top_x_days 5 st) = st.
Proof.
  intros st.
  destruct (average_temp_mutates_queries_do_not Demo.archive_two_days st)
    as (Havg & Hextreme & Htop).
  split; [|split; [apply Hextreme | apply Htop]].
  refine (proj1 (proj2 (Havg [Demo.day "2020-01-01" 10;
                              Demo.day "2020-01-02" 20] _))).
  evaluate.
Defined.

(** ** C3 *)
Lemma init_unknown_zip_witness :
  __init__ Demo.archive_steady Demo.geocoder "00000" default_start default_end 0
  = (Raise LookupError, 0).
Proof.
  refine (proj1 (proj2 (init_unknown_zip Demo.archive_steady Demo.geocoder
                          "00000" default_start default_end 0 _ _)));
    evaluate.
Defined.

(** ** C4 *)
Lemma extreme_days_filters_witness :
  extreme_days 25%float (Demo.session Demo.three_days)
  = (Ok [Demo.day "2020-01-02" 30], Demo.session Demo.three_days)
  /\ fst (extreme_days 30%float (Demo.session Demo.three_days)) = Ok []
  /\ fst (extreme_days 10%float (Demo.session Demo.three_days))
     = Ok (_temp_list Demo.three_days).
Proof.
  split; [|split].
  - refine (proj1 (extreme_days_filters (Demo.session Demo.three_days)
                                        25%float _)); evaluate.
  - rewrite (proj1 (extreme_days_filters (Demo.session Demo.three_days)
                                         30%float eq_refl)). evaluate.
  - rewrite (proj1 (extreme_days_filters (Demo.session Demo.three_days)
                                         10%float eq_refl)). evaluate.
Defined.

(** ** C5 *)
Lemma top_x_days_sorted_stable_witness :
  exists top rest : list (point (num := float)),
    top_x_days 2 (Demo.session Demo.three_days)
    = (Ok top, Demo.session Demo.three_days)
    /\ List.length top = 2
    /\ Permutation (top ++ rest) (_temp_list Demo.three_days)
    /\ descending (top ++ rest).
Proof.
  destruct (top_x_days_sorted_stable (Demo.session Demo.three_days)
              (num_days := 2) eq_refl three_days_ordered)
    as (top & rest & Htop & Hlen & _ & Hperm & Hdesc & _); [lia|].
  exists top, rest. repeat split; assumption.
Defined.

(** ** C6 and C7 *)

(** Two dates and one temperature: the load returns one pair and raises
    nothing. *)
Lemma load_temps_mismatched_counterexample :
  let st := Demo.session Demo.mountain_view in
  Demo.archive_mismatched (sent st) (request_for (self st))
  = Response (Demo.payload ["2020-01-01"; "2020-01-02"] [10%float])
  /\ List.length ["2020-01-01"; "2020-01-02"] <> List.length [10%float]
  /\ _load_temps Demo.archive_mismatched st
     = (Ok [Demo.day "2020-01-01" 10],
        loaded [Demo.day "2020-01-01" 10] st)
  /\ (forall e : exn,
         fst (_load_temps Demo.archive_mismatched st) <> Raise e).
Proof.
  repeat split; try evaluate.
  - vm_compute; discriminate.
  - intros e; vm_compute; discriminate.
Qed.

Lemma load_temps_format_failures_witness :
  let st := Demo.session Demo.mountain_view in
  _load_temps Demo.archive_garbled st = (Raise JSONDecodeError, one_more st)
  /\ _load_temps Demo.archive_rejecting st = (Raise KeyError, one_more st)
  /\ _load_temps Demo.archive_mismatched st
     = (Ok [Demo.day "2020-01-01" 10],
        loaded [Demo.day "2020-01-01" 10] st).
Proof.
  intros st.
  destruct (load_temps_format_failures Demo.archive_garbled st)
    as (Hjson & _).
  destruct (load_temps_format_failures Demo.archive_rejecting st)
    as (_ & Hkey & _).
  destruct (load_temps_format_failures Demo.archive_mismatched st)
    as (_ & _ & _ & _ & _ & Hzip).
  split; [|split].
  - apply Hjson; evaluate.
  - refine (Hkey _ _ _); evaluate.
  - refine (proj1 (Hzip _ _ (map SStr ["2020-01-01"; "2020-01-02"])
                        (map SNum [10%float]) _ _ _ _)); evaluate.
Defined.

Lemma load_temps_zips_arrays_witness :
  _load_temps Demo.archive_two_days (Demo.session Demo.mountain_view)
  = (Ok [Demo.day "2020-01-01" 10; Demo.day "2020-01-02" 20],
     loaded [Demo.day "2020-01-01" 10; Demo.day "2020-01-02" 20]
            (Demo.session Demo.mountain_view)).
Proof.
  refine (proj1 (proj2 (load_temps_zips_arrays Demo.archive_two_days
                          (Demo.session Demo.mountain_view)
                          (dates := map SStr ["2020-01-01"; "2020-01-02"])
                          (temps := map SNum [10%float; 20%float])
                          _ _ _ _))); evaluate.
Defined.

(** ** C8 *)

(** Two days, 10 and 20, for the first place: the line shows 15 and not
    the sum 30.  Three days, 10, 20 and 60, for the second: the line shows
    30 and not the sum 90. *)
Lemma compare_average_temps_prints_witness :
  printed (snd (compare_average_temps DemoShell.archive_by_place
                  (Demo.shell (Some Demo.mountain_view)
                              (Some Demo.palo_alto))))
  = [[Text "The average maximum temperatures for ";
      Value (SStr "Mountain View"); Text " was "; Rounded 15%float 2;
      Text " degrees Celsius."];
     [Text "The average maximum temperatures for ";
      Value (SStr "Palo Alto"); Text " was "; Rounded 30%float 2;
      Text " degrees Celsius."]]
  /\ compare_average_temps Demo.archive_steady
       (Demo.shell (Some Demo.mountain_view) None)
     = (Ok tt,
        {| dataset_one := Some Demo.mountain_view; dataset_two := None;
           requests := 0;
           printed := [[Text "Please load two datasets first"]] |}).
Proof.
  destruct (compare_average_temps_prints DemoShell.archive_by_place
              (Demo.shell (Some Demo.mountain_view) (Some Demo.palo_alto)))
    as [Hboth _].
  destruct (compare_average_temps_prints Demo.archive_steady
              (Demo.shell (Some Demo.mountain_view) None))
    as [_ Habsent].
  split.
  - refine (eq_trans
              (proj2 (Hboth Demo.mountain_view Demo.palo_alto
                            [Demo.day "2020-01-01" 10;
                             Demo.day "2020-01-02" 20]
                            [Demo.day "2020-01-01" 10;
                             Demo.day "2020-01-02" 20;
                             Demo.day "2020-01-03" 60]
                            eq_refl eq_refl _ _ eq_refl _ eq_refl _)) _);
      try evaluate; discriminate.
  - apply Habsent; right; reflexivity.
Defined.

(** ** Outside the hypotheses

    What the queries do on a series that holds a null, and what the slice
    does with a negative count. *)

Remark extreme_days_null_raises :
  fst (extreme_days 25%float
         (Demo.session
            (set_temp_list [Demo.day "2020-01-01" 30; (SStr "2020-01-02", SNull)]
                           Demo.mountain_view)))
  = Raise TypeError.
Proof. evaluate. Qed.

Remark top_x_days_null_raises :
  fst (top_x_days 5
         (Demo.session
            (set_temp_list [Demo.day "2020-01-01" 30; (SStr "2020-01-02", SNull)]
                           Demo.mountain_view)))
  = Raise TypeError.
Proof. evaluate. Qed.

Remark top_x_days_negative_count :
  fst (top_x_days (-1) (Demo.session Demo.three_days))
  = Ok [Demo.day "2020-01-02" 30; Demo.day "2020-01-01" 20].
Proof. evaluate. Qed.

Remark average_temp_empty_raises :
  fst (average_temp (fun _ _ => Response (Demo.payload [] []))
                    (Demo.session Demo.mountain_view))
  = Raise ZeroDivisionError.
Proof. evaluate. Qed.

(** * Further properties of the class *)
Section ClassProperties.

Context {num : Type} `{PyNum num}.

Variable archive : nat -> request (num := num) -> http_result (num := num).
Variable geocoder : string -> option (num * num * scalar (num := num)).

#[local] Abbreviation scalar := (@scalar num).
#[local] Abbreviation json := (@json num).
#[local] Abbreviation body := (@body num).
#[local] Abbreviation point := (@point num).
#[local] Abbreviation HistoricalTemps := (@HistoricalTemps num).
#[local] Abbreviation state := (@state num).

(** ** The conversion when an array is missing *)

Lemma has_key_assoc (k : string) (members : list (string * json)) :
  has_key k members = true -> exists v : json, assoc k members = Some v.
Proof.
  induction members as [|[k' v'] rest IH]; simpl; [discriminate|].
  rewrite (String.eqb_sym k' k).
  destruct (String.eqb k k'); simpl; eauto.
Qed.

(** Over keys of the dict itself the loop never raises: it binds [dates]
    and [temps] at the two keys it looks for, when it meets them. *)
Lemma for_loop_members (daily_members : list (string * json)) :
  forall (keys : list (string * json)) (env : locals),
    (forall k : string,
        has_key k keys = true -> has_key k daily_members = true) ->
    for_loop (JObj daily_members) (map (fun kv => SStr (fst kv)) keys) env
    = Ok (if has_key "time" keys
          then assoc "time" daily_members else fst env,
          if has_key "temperature_2m_max" keys
          then assoc "temperature_2m_max" daily_members else snd env).
Proof.
  induction keys as [|[k v] rest IH]; intros [d t] Hin; simpl;
    [reflexivity|].
  assert (Hrest : forall k0 : string,
             has_key k0 rest = true -> has_key k0 daily_members = true).
  { intros k0 Hk0. apply Hin. simpl. rewrite Hk0. apply orb_true_r. }
  unfold loop_body; simpl.
  destruct (String.eqb k "time") eqn:Ek.
  - apply String.eqb_eq in Ek; subst k.
    destruct (has_key_assoc "time" daily_members) as [a Ha].
    { apply Hin. reflexivity. }
    simpl. rewrite Ha; simpl. rewrite (IH _ Hrest); simpl.
    destruct (has_key "time" rest), (has_key "temperature_2m_max" rest);
      rewrite ?Ha; reflexivity.
  - simpl. destruct (String.eqb k "temperature_2m_max") eqn:Et.
    + apply String.eqb_eq in Et; subst k.
      destruct (has_key_assoc "temperature_2m_max" daily_members) as [b Hb].
      { apply Hin. reflexivity. }
      simpl. rewrite Hb; simpl. rewrite (IH _ Hrest); simpl.
      destruct (has_key "time" rest), (has_key "temperature_2m_max" rest);
        rewrite ?Hb; reflexivity.
    + simpl. rewrite (IH _ Hrest); reflexivity.
Qed.

(** X1.  When the [daily] object of the answer lacks the key [time] or the
    key [temperature_2m_max], the local the loop would have bound is read
    unbound: the conversion raises [UnboundLocalError], and the load that
    called it stores nothing and leaves the cached list as it was. *)
Theorem convert_missing_array
        (members daily_members : list (string * json)) :
  assoc "daily" members = Some (JObj daily_members) ->
  has_key "time" daily_members = false
  \/ has_key "temperature_2m_max" daily_members = false ->
  _convert_json_to_list (Decodes (JObj members)) = Raise UnboundLocalError
  /\ (forall st : state,
         archive (sent st) (request_for (self st))
         = Response (Decodes (JObj members)) ->
         _load_temps archive st = (Raise UnboundLocalError, one_more st)
         /\ _temp_list (self (one_more st)) = _temp_list (self st)).
Proof.
  intros Hd Hmiss.
  assert (Hc : _convert_json_to_list (Decodes (JObj members))
               = Raise UnboundLocalError).
  { unfold _convert_json_to_list; simpl. rewrite Hd; simpl.
    rewrite (for_loop_members daily_members daily_members (None, None));
      [|auto]. simpl.
    destruct (has_key "time" daily_members) eqn:Ht; [|reflexivity].
    destruct (has_key_assoc _ _ Ht) as [a Ha]. rewrite Ha; simpl.
    destruct Hmiss as [Hm|Hm]; [discriminate|]. rewrite Hm; reflexivity. }
  split; [exact Hc|].
  intros st Hnet. split; [|reflexivity].
  rewrite load_temps_unfold, Hnet, Hc; reflexivity.
Qed.

(** ** The constructor on a postal code the geocoder knows *)

(** With a row whose longitude is a number the constructor passes its
    guard and its outcome is that of the load on the new object. *)
Lemma init_known_unfold (zip_code start end_ : string) (k : nat)
      (lat lon : num) (name : scalar) :
  geocoder zip_code = Some (lat, lon, name) ->
  num_isnan lon = false ->
  __init__ archive geocoder zip_code start end_ k
  = match _load_temps archive
            {| self := created zip_code start end_ lat lon name;
               sent := k |} with
    | (Ok _, st) => (Ok (self st), sent st)
    | (Raise e, st) => (Raise e, sent st)
    end.
Proof.
  intros Hgeo Hlon.
  unfold __init__, zip_to_loc_info, query_postal_code.
  rewrite Hgeo; simpl. rewrite Hlon. reflexivity.
Qed.

(** X2.  For a postal code whose row has a longitude that is a number, the
    constructor sends one request and its outcome is that of the load: when
    the load returns, the object holds the given code and dates, the
    geocoder's coordinates and name, and the loaded series; when the load
    raises, the constructor raises the same exception and there is no
    object.  The latitude is not looked at. *)
Theorem init_known_zip (zip_code start end_ : string) (k : nat)
        (lat lon : num) (name : scalar) :
  geocoder zip_code = Some (lat, lon, name) ->
  num_isnan lon = false ->
  let o := created zip_code start end_ lat lon name in
  (forall series : list point,
      fst (_load_temps archive {| self := o; sent := k |}) = Ok series ->
      __init__ archive geocoder zip_code start end_ k
      = (Ok (set_temp_list series o), S k))
  /\ (forall e : exn,
         fst (_load_temps archive {| self := o; sent := k |}) = Raise e ->
         __init__ archive geocoder zip_code start end_ k = (Raise e, S k)).
Proof.
  intros Hgeo Hlon o.
  rewrite (init_known_unfold start end_ k Hgeo Hlon). fold o.
  split.
  - intros series Hl. rewrite (load_temps_ok _ _ Hl); reflexivity.
  - intros e Hl. rewrite (load_temps_raise _ _ Hl); reflexivity.
Qed.

End ClassProperties.
(** * Further properties of the methods *)
Section MethodProperties.

Context {num : Type} `{PyNum num}.

Variable archive : nat -> request (num := num) -> http_result (num := num).

#[local] Abbreviation scalar := (@scalar num).
#[local] Abbreviation point := (@point num).
#[local] Abbreviation HistoricalTemps := (@HistoricalTemps num).
#[local] Abbreviation state := (@state num).

(** A load returns and stores a list, or raises and stores nothing. *)
Lemma load_temps_cases (st : state) :
  (exists l : list point, _load_temps archive st = (Ok l, loaded l st))
  \/ (exists e : exn, _load_temps archive st = (Raise e, one_more st)).
Proof.
  destruct (fst (_load_temps archive st)) as [l|e] eqn:E.
  - left; exists l; exact (load_temps_ok _ _ E).
  - right; exists e; exact (load_temps_raise _ _ E).
Qed.

Lemma same_place_refl (o : HistoricalTemps) : same_place o o.
Proof. repeat split. Qed.

Lemma same_place_trans (o1 o2 o3 : HistoricalTemps) :
  same_place o1 o2 -> same_place o2 o3 -> same_place o1 o3.
Proof.
  unfold same_place; intros (A1 & A2 & A3 & A4) (B1 & B2 & B3 & B4).
  repeat split; congruence.
Qed.

Lemma load_temps_place (st : state) :
  same_place (self st) (self (snd (_load_temps archive st))).
Proof.
  destruct (load_temps_cases st) as [[l E]|[e E]]; rewrite E;
    repeat split.
Qed.

(** The outcome of a setter on the start date, in each of its three runs. *)
Lemma set_start_cases (start : string) (st : state) :
  (exists l : list point,
      set_start archive start st = (Ok tt, loaded l (with_start start st)))
  \/ (exists l : list point,
         set_start archive start st
         = (Raise LookupError, loaded l (one_more st)))
  \/ (exists e : exn,
         set_start archive start st = (Raise e, one_more (one_more st))).
Proof.
  rewrite set_start_unfold.
  destruct (load_temps_cases (with_start start st)) as [[l E]|[e E]];
    rewrite E; [left; exists l; reflexivity|].
  right.
  destruct (load_temps_cases (one_more st)) as [[l' E']|[e' E']]; rewrite E';
    [left; exists l' | right; exists e']; reflexivity.
Qed.

Lemma set_end_cases (end_ : string) (st : state) :
  (exists l : list point,
      set_end archive end_ st = (Ok tt, loaded l (with_end end_ st)))
  \/ (exists l : list point,
         set_end archive end_ st
         = (Raise LookupError, loaded l (one_more st)))
  \/ (exists e : exn,
         set_end archive end_ st = (Raise e, one_more (one_more st))).
Proof.
  rewrite set_end_unfold.
  destruct (load_temps_cases (with_end end_ st)) as [[l E]|[e E]];
    rewrite E; [left; exists l; reflexivity|].
  right.
  destruct (load_temps_cases (one_more st)) as [[l' E']|[e' E']]; rewrite E';
    [left; exists l' | right; exists e']; reflexivity.
Qed.

(** The two queries leave the state alone. *)
Lemma extreme_days_state (threshold : num) (st : state) :
  snd (extreme_days threshold st) = st.
Proof.
  unfold extreme_days, bind, get_self, lift, ret.
  destruct (comprehension (_temp_list (self st)) threshold); reflexivity.
Qed.

Lemma top_x_days_state (num_days : Z) (st : state) :
  snd (top_x_days num_days st) = st.
Proof.
  unfold top_x_days, bind, get_self, lift, ret.
  destruct (sorted_reverse (_temp_list (self st))); reflexivity.
Qed.

Lemma average_temp_cases (st : state) :
  (exists l : list point, snd (average_temp archive st) = loaded l st)
  \/ snd (average_temp archive st) = one_more st.
Proof.
  rewrite average_temp_unfold.
  destruct (load_temps_cases st) as [[l E]|[e E]]; rewrite E;
    [left; exists l | right; reflexivity].
  destruct (sum_loop l num_zero); reflexivity.
Qed.

(** X3.  No method moves a dataset: after a load, a setter, an average or a
    query, whether it returned or raised, the zip code, the coordinates and
    the place name are those from before the call. *)
Theorem methods_keep_place (st : state) :
  same_place (self st) (self (snd (_load_temps archive st)))
  /\ (forall start : string,
         same_place (self st) (self (snd (set_start archive start st))))
  /\ (forall end_ : string,
         same_place (self st) (self (snd (set_end archive end_ st))))
  /\ same_place (self st) (self (snd (average_temp archive st)))
  /\ (forall threshold : num,
         same_place (self st) (self (snd (extreme_days threshold st))))
  /\ (forall num_days : Z,
         same_place (self st) (self (snd (top_x_days num_days st)))).
Proof.
  split; [apply load_temps_place|].
  split; [|split; [|split; [|split]]].
  - intros start.
    destruct (set_start_cases start st) as [[l E]|[[l E]|[e E]]]; rewrite E;
      repeat split.
  - intros end_.
    destruct (set_end_cases end_ st) as [[l E]|[[l E]|[e E]]]; rewrite E;
      repeat split.
  - destruct (average_temp_cases st) as [[l E]|E]; rewrite E; repeat split.
  - intros threshold. rewrite extreme_days_state. apply same_place_refl.
  - intros num_days. rewrite top_x_days_state. apply same_place_refl.
Qed.

(** ** The setters *)

(** X4.  When the reload for the new date returns, the setter returns: the
    object holds the new date, the other date is untouched, the cached list
    is the series fetched for the new range, and one request was sent. *)
Theorem setters_store_new_date (st : state) :
  (forall (start : string) (series : list point),
      fst (_load_temps archive (with_start start st)) = Ok series ->
      set_start archive start st = (Ok tt, loaded series (with_start start st))
      /\ _start (self (loaded series (with_start start st))) = start
      /\ _end (self (loaded series (with_start start st))) = _end (self st)
      /\ _temp_list (self (loaded series (with_start start st))) = series
      /\ sent (loaded series (with_start start st)) = S (sent st))
  /\ (forall (end_ : string) (series : list point),
         fst (_load_temps archive (with_end end_ st)) = Ok series ->
         set_end archive end_ st = (Ok tt, loaded series (with_end end_ st))
         /\ _start (self (loaded series (with_end end_ st))) = _start (self st)
         /\ _end (self (loaded series (with_end end_ st))) = end_
         /\ _temp_list (self (loaded series (with_end end_ st))) = series
         /\ sent (loaded series (with_end end_ st)) = S (sent st)).
Proof.
  split; intros new series Hl; (split; [|repeat split]).
  - rewrite set_start_unfold, (load_temps_ok _ _ Hl); reflexivity.
  - rewrite set_end_unfold, (load_temps_ok _ _ Hl); reflexivity.
Qed.

(** X5.  A setter changes its date exactly when it returns: after a return
    the field holds the new date, after any exception it holds the date from
    before the call; the other date never changes.  A return costs one
    request and an exception two. *)
Theorem setters_change_date_iff_return (st : state) :
  (forall start : string,
      let r := set_start archive start st in
      _end (self (snd r)) = _end (self st)
      /\ (fst r = Ok tt ->
          _start (self (snd r)) = start /\ sent (snd r) = S (sent st))
      /\ (forall e : exn,
             fst r = Raise e ->
             _start (self (snd r)) = _start (self st)
             /\ sent (snd r) = S (S (sent st))))
  /\ (forall end_ : string,
         let r := set_end archive end_ st in
         _start (self (snd r)) = _start (self st)
         /\ (fst r = Ok tt ->
             _end (self (snd r)) = end_ /\ sent (snd r) = S (sent st))
         /\ (forall e : exn,
                fst r = Raise e ->
                _end (self (snd r)) = _end (self st)
                /\ sent (snd r) = S (S (sent st)))).
Proof.
  split.
  - intros start r; subst r.
    destruct (set_start_cases start st) as [[l E]|[[l E]|[e E]]]; rewrite E;
      simpl; repeat split; try discriminate.
  - intros end_ r; subst r.
    destruct (set_end_cases end_ st) as [[l E]|[[l E]|[e E]]]; rewrite E;
      simpl; repeat split; try discriminate.
Qed.

End MethodProperties.
(** * Further properties of the queries *)
Section QueryProperties.

Context {num : Type} `{PyNum num}.

Variable archive : nat -> request (num := num) -> http_result (num := num).

#[local] Abbreviation scalar := (@scalar num).
#[local] Abbreviation point := (@point num).
#[local] Abbreviation HistoricalTemps := (@HistoricalTemps num).
#[local] Abbreviation state := (@state num).

Lemma py_gt_not_numeric (p : point) (threshold : num) :
  is_numeric p = false -> py_gt (snd p) threshold = Raise TypeError.
Proof.
  unfold is_numeric, temperature, py_gt.
  destruct (as_number (snd p)); [discriminate | reflexivity].
Qed.

Lemma py_gt_numeric (p : point) (threshold : num) :
  is_numeric p = true -> py_gt (snd p) threshold = Ok (above threshold p).
Proof.
  unfold is_numeric, temperature, py_gt, above, temperature.
  destruct (as_number (snd p)); [reflexivity | discriminate].
Qed.

(** The comprehension raises [TypeError] as soon as the series holds an
    entry whose temperature is not a number. *)
Lemma comprehension_raises (threshold : num) (l : list point) :
  forallb is_numeric l = false ->
  comprehension l threshold = Raise TypeError.
Proof.
  induction l as [|p l IH]; simpl; [discriminate|].
  destruct (is_numeric p) eqn:Ep; simpl.
  - intros Hl. rewrite (py_gt_numeric _ _ Ep); simpl.
    rewrite (IH Hl); reflexivity.
  - intros _. rewrite (py_gt_not_numeric _ _ Ep); reflexivity.
Qed.

(** X6.  [extreme_days] raises exactly when the cached series holds an
    entry whose temperature is not a number (a null, a string), whatever
    the threshold and wherever the entry stands; what it raises is
    [TypeError], and the object is left as it was. *)
Theorem extreme_days_raises_type_error (st : state) (threshold : num) :
  let series := _temp_list (self st) in
  (forallb is_numeric series = false ->
   extreme_days threshold st = (Raise TypeError, st))
  /\ (forall e : exn,
         fst (extreme_days threshold st) = Raise e ->
         e = TypeError /\ forallb is_numeric series = false).
Proof.
  intros series; subst series. split.
  - intros Hn. unfold extreme_days, bind, get_self, lift, ret.
    rewrite (comprehension_raises threshold _ Hn); reflexivity.
  - intros e. unfold extreme_days, bind, get_self, lift, ret.
    destruct (forallb is_numeric (_temp_list (self st))) eqn:Hn.
    + rewrite (comprehension_filter threshold _ Hn); discriminate.
    + rewrite (comprehension_raises threshold _ Hn); simpl.
      intros [= <-]; split; reflexivity.
Qed.

Lemma sum_loop_raises (l : list point) :
  forallb is_numeric l = false ->
  forall total : num, sum_loop l total = Raise TypeError.
Proof.
  induction l as [|p l IH]; simpl; [discriminate|].
  intros Hl total.
  unfold py_add. unfold is_numeric, temperature in Hl.
  destruct (as_number (snd p)) as [x|]; simpl in *; [|reflexivity].
  apply IH, Hl.
Qed.

(** X7.  How [average_temp] fails.  When the reload raises, the average
    raises the same exception and the cached list is kept.  When the reload
    returns no entry, the average raises [ZeroDivisionError]; when it returns
    an entry whose temperature is not a number, the average raises
    [TypeError]; in both cases the reloaded list has already replaced the
    cached one.  Each of the three costs one request. *)
Theorem average_temp_failures (st : state) :
  (forall e : exn,
      fst (_load_temps archive st) = Raise e ->
      average_temp archive st = (Raise e, one_more st)
      /\ _temp_list (self (one_more st)) = _temp_list (self st))
  /\ (fst (_load_temps archive st) = Ok [] ->
      average_temp archive st = (Raise ZeroDivisionError, loaded [] st)
      /\ _temp_list (self (loaded [] st)) = [])
  /\ (forall reloaded : list point,
         fst (_load_temps archive st) = Ok reloaded ->
         forallb is_numeric reloaded = false ->
         average_temp archive st = (Raise TypeError, loaded reloaded st)
         /\ _temp_list (self (loaded reloaded st)) = reloaded).
Proof.
  split; [|split].
  - intros e Hl. split; [|reflexivity].
    rewrite average_temp_unfold, (load_temps_raise _ _ Hl); reflexivity.
  - intros Hl. split; [|reflexivity].
    rewrite average_temp_unfold, (load_temps_ok _ _ Hl); reflexivity.
  - intros reloaded Hl Hn. split; [|reflexivity].
    rewrite average_temp_unfold, (load_temps_ok _ _ Hl).
    rewrite (sum_loop_raises _ Hn); reflexivity.
Qed.

End QueryProperties.
(** * Further properties of [top_x_days] *)
Section TopProperties.

Context {num : Type} `{PyNum num}.

#[local] Abbreviation scalar := (@scalar num).
#[local] Abbreviation point := (@point num).
#[local] Abbreviation HistoricalTemps := (@HistoricalTemps num).
#[local] Abbreviation state := (@state num).

Lemma sorted_reverse_perm (l : list point) :
  Permutation (rev (sort_numbers (rev l))) l.
Proof.
  rewrite <- Permutation_rev, sort_numbers_perm.
  symmetry; apply Permutation_rev.
Qed.

(** X8.  The count of [top_x_days] at its bounds, on a series of numbers.
    Let the full list be what [top_x_days] returns for a count equal to the
    length of the series.  It holds every entry of the series; when [<]
    orders the temperatures no entry of it is below a later one, and entries
    that tie keep the order they have in the series.  A count of zero gives
    no entry; any count that reaches the length gives the full list; a
    negative count [-k] does not fail: it gives the full list without its
    last [k] entries, and no entry when [k] reaches the length. *)
Theorem top_x_days_counts (st : state) :
  let series := _temp_list (self st) in
  forallb is_numeric series = true ->
  exists full : list point,
    fst (top_x_days (Z.of_nat (List.length series)) st) = Ok full
    /\ Permutation full series
    /\ (ordered_by_lt series ->
        descending full
        /\ (forall q : point,
               In q series -> filter (tie q) full = filter (tie q) series))
    /\ fst (top_x_days 0 st) = Ok []
    /\ (forall num_days : Z,
           (Z.of_nat (List.length series) <= num_days)%Z ->
           fst (top_x_days num_days st) = Ok full)
    /\ (forall k : nat,
           0 < k ->
           fst (top_x_days (- Z.of_nat k) st)
           = Ok (firstn (List.length series - k) full)
           /\ List.length (firstn (List.length series - k) full)
              = List.length series - k).
Proof.
  intros series Hnum.
  exists (rev (sort_numbers (rev series))).
  pose proof (sorted_reverse_perm series) as Hperm.
  pose proof (Permutation_length Hperm) as Hlen.
  assert (Hincl : incl (rev series) series).
  { intros p Hp; apply in_rev; exact Hp. }
  assert (Htop : forall n : Z,
             fst (top_x_days n st)
             = Ok (slice_to (rev (sort_numbers (rev series))) n)).
  { intros n. unfold top_x_days, bind, get_self, lift, ret. fold series.
    rewrite (sorted_reverse_numeric _ Hnum); reflexivity. }
  assert (Hall : forall n : Z,
             (Z.of_nat (List.length series) <= n)%Z ->
             fst (top_x_days n st) = Ok (rev (sort_numbers (rev series)))).
  { intros n Hn. rewrite Htop. unfold slice_to.
    destruct (Z.ltb_spec n 0); [lia|].
    rewrite firstn_all2; [reflexivity|]. rewrite Hlen; lia. }
  split; [apply Hall; lia|].
  split; [exact Hperm|]. split; [|split; [|split]].
  - intros Hord. split.
    + unfold descending.
      apply (sorted_rev (R := fun a b => below b a = false)).
      exact (sort_numbers_ascending Hord Hincl).
    + intros q Hq.
      rewrite filter_rev, (sort_numbers_stable Hord _ Hq Hincl), filter_rev.
      apply rev_involutive.
  - rewrite Htop; reflexivity.
  - exact Hall.
  - intros k Hk. split.
    + rewrite Htop. unfold slice_to.
      destruct (Z.ltb_spec (- Z.of_nat k) 0); [|lia].
      rewrite Hlen. do 2 f_equal. lia.
    + rewrite length_firstn, Hlen. lia.
Qed.

(** X9.  A shorter list of top days is the beginning of a longer one: for
    counts [0 <= m <= n], what [top_x_days m] returns is the first [m]
    entries of what [top_x_days n] returns. *)
Theorem top_x_days_prefix (st : state) (m n : Z) (top : list point) :
  (0 <= m <= n)%Z ->
  fst (top_x_days n st) = Ok top ->
  fst (top_x_days m st) = Ok (firstn (Z.to_nat m) top).
Proof.
  intros Hmn. unfold top_x_days, bind, get_self, lift, ret.
  destruct (sorted_reverse (_temp_list (self st))) as [sorted|e]; simpl;
    [|discriminate].
  intros [= <-]. unfold slice_to.
  destruct (Z.ltb_spec n 0); [lia|]. destruct (Z.ltb_spec m 0); [lia|].
  rewrite firstn_firstn. do 2 f_equal. lia.
Qed.

(** X10.  On a series of numbers that [<] orders and that is not empty,
    the first entry [top_x_days] returns for a count of at least one is a
    hottest day: it is an entry of the series and no entry of the series
    has a temperature above its own. *)
Theorem top_x_days_first_is_hottest (st : state) (num_days : Z) :
  let series := _temp_list (self st) in
  forallb is_numeric series = true ->
  ordered_by_lt series ->
  series <> [] ->
  (1 <= num_days)%Z ->
  exists (hottest : point) (rest : list point),
    fst (top_x_days num_days st) = Ok (hottest :: rest)
    /\ In hottest series
    /\ (forall p : point, In p series -> below hottest p = false).
Proof.
  intros series Hnum Hord Hne Hn.
  set (sorted := rev (sort_numbers (rev series))).
  pose proof (sorted_reverse_perm series) as Hperm. fold sorted in Hperm.
  assert (Hdesc : descending sorted).
  { unfold descending, sorted.
    apply (sorted_rev (R := fun a b => below b a = false)).
    apply (sort_numbers_ascending Hord).
    intros p Hp; apply in_rev; exact Hp. }
  assert (Htop : fst (top_x_days num_days st)
                 = Ok (firstn (Z.to_nat num_days) sorted)).
  { unfold top_x_days, bind, get_self, lift, ret. fold series.
    rewrite (sorted_reverse_numeric _ Hnum). fold sorted.
    unfold slice_to. destruct (Z.ltb_spec num_days 0); [lia | reflexivity]. }
  clearbody sorted.
  destruct sorted as [|hottest tl].
  { apply Permutation_nil in Hperm. contradiction. }
  exists hottest, (firstn (Z.to_nat num_days - 1) tl).
  assert (Hh : In hottest series).
  { apply (Permutation_in _ Hperm). left; reflexivity. }
  split; [|split].
  - rewrite Htop.
    destruct (Z.to_nat num_days) as [|j] eqn:Ej; [lia|].
    simpl. rewrite Nat.sub_0_r. reflexivity.
  - exact Hh.
  - intros p Hp.
    apply (Permutation_in _ (Permutation_sym Hperm)) in Hp.
    apply StronglySorted_inv in Hdesc as [_ Hall].
    destruct Hp as [<-|Hp].
    + destruct Hord as [asym _].
      destruct (below hottest hottest) eqn:E; [|reflexivity].
      rewrite (asym _ _ Hh Hh E) in E; discriminate.
    + rewrite Forall_forall in Hall. apply Hall, Hp.
Qed.

End TopProperties.
(** * Properties of the shell *)
Section ShellProperties.

Context {num : Type} `{PyNum num}.

Variable archive : nat -> request (num := num) -> http_result (num := num).
Variable geocoder : string -> option (num * num * scalar (num := num)).
Variable keyboard : nat -> string.
Variable py_float : string -> option num.
Variable py_int : string -> option Z.

#[local] Abbreviation scalar := (@scalar num).
#[local] Abbreviation point := (@point num).
#[local] Abbreviation HistoricalTemps := (@HistoricalTemps num).
#[local] Abbreviation state := (@state num).
#[local] Abbreviation line := (@line num).
#[local] Abbreviation terminal := (@terminal num).

(** The loop that prints one line per entry writes the lines in the order
    of the entries, and does nothing else. *)
Lemma print_each_lines (f : point -> line) (l : list point) :
  forall t : terminal,
    print_each f l t
    = {| typed := typed t; requested := requested t;
         shown := (shown t ++ map f l)%list |}.
Proof.
  induction l as [|p l IH]; intros t; simpl.
  - rewrite app_nil_r. destruct t; reflexivity.
  - rewrite IH. unfold print; simpl. rewrite <- app_assoc. reflexivity.
Qed.

(** ** [create_dataset] *)

(** X11.  For a typed postal code the geocoder has no match for,
    [create_dataset] returns [None] after the prompt and the line that says
    the data could not be loaded; no request is sent to the archive. *)
Theorem create_dataset_unknown_zip (t : terminal) :
  num_isnan num_nan = true ->
  geocoder (keyboard (typed t)) = None ->
  create_dataset archive geocoder keyboard t
  = (Ok None,
     {| typed := S (typed t); requested := requested t;
        shown := (shown t ++ [prompt "Please enter a zipcode "; not_loaded])%list
     |}).
Proof.
  intros Hnan Hgeo.
  unfold create_dataset, input; cbn [typed requested shown].
  rewrite init_guard.
  - unfold print; simpl. rewrite <- app_assoc. reflexivity.
  - unfold zip_to_loc_info, query_postal_code. rewrite Hgeo. exact Hnan.
Qed.

(** For a typed postal code the geocoder knows, [create_dataset] by the
    outcome of the first load. *)
Lemma create_dataset_known_unfold (t : terminal) (lat lon : num)
      (name : scalar) :
  geocoder (keyboard (typed t)) = Some (lat, lon, name) ->
  num_isnan lon = false ->
  create_dataset archive geocoder keyboard t
  = let asked :=
      {| typed := S (typed t); requested := requested t;
         shown := (shown t ++ [prompt "Please enter a zipcode "])%list |} in
    match _load_temps archive
            {| self := created (keyboard (typed t)) default_start
                               default_end lat lon name;
               sent := requested t |} with
    | (Ok _, st) => (Ok (Some (self st)), after_call st asked)
    | (Raise e, st) =>
        if is_LookupError e
        then (Ok None, print not_loaded (after_call st asked))
        else (Raise e, after_call st asked)
    end.
Proof.
  intros Hgeo Hlon.
  unfold create_dataset, input; cbn [typed requested shown].
  rewrite (init_known_unfold archive geocoder _ default_start default_end
                             (requested t) Hgeo Hlon).
  destruct (_load_temps archive _) as [[l|e] st]; [reflexivity|].
  destruct (is_LookupError e); reflexivity.
Qed.

(** X12.  For a typed postal code the geocoder knows, [create_dataset]
    gives the outcome of the first load.  When the load returns, the result
    is the new dataset, with the default dates and the loaded series.  Of
    the exceptions a load raises the handler catches [KeyError] alone, the
    one of an answer without [daily]: the function then prints its line and
    returns [None].  Any other one, a transport failure among them, leaves
    [create_dataset] with nothing printed. *)
Theorem create_dataset_known_zip (t : terminal) (lat lon : num)
        (name : scalar) :
  geocoder (keyboard (typed t)) = Some (lat, lon, name) ->
  num_isnan lon = false ->
  let o := created (keyboard (typed t)) default_start default_end
                   lat lon name in
  let asked :=
    {| typed := S (typed t); requested := S (requested t);
       shown := (shown t ++ [prompt "Please enter a zipcode "])%list |} in
  (forall series : list point,
      fst (_load_temps archive {| self := o; sent := requested t |})
      = Ok series ->
      create_dataset archive geocoder keyboard t
      = (Ok (Some (set_temp_list series o)), asked))
  /\ (fst (_load_temps archive {| self := o; sent := requested t |})
      = Raise KeyError ->
      create_dataset archive geocoder keyboard t
      = (Ok None, print not_loaded asked))
  /\ (forall e : exn,
         fst (_load_temps archive {| self := o; sent := requested t |})
         = Raise e ->
         e <> KeyError ->
         create_dataset archive geocoder keyboard t = (Raise e, asked)).
Proof.
  intros Hgeo Hlon o asked.
  rewrite (create_dataset_known_unfold _ Hgeo Hlon). fold o.
  split; [|split].
  - intros series Hl. rewrite (load_temps_ok _ _ Hl); reflexivity.
  - intros Hl. rewrite (load_temps_raise _ _ Hl); reflexivity.
  - intros e Hl Hne. rewrite (load_temps_raise _ _ Hl).
    destruct (load_temps_raises _ _ Hl) as [_ Hnl].
    destruct e; try reflexivity; contradiction.
Qed.

(** ** [print_extreme_days] *)

(** X13.  [print_extreme_days] never changes the dataset it is given and
    never sends a request.  Without a dataset it asks nothing; with one it
    asks exactly one question, whatever the answer. *)
Theorem print_extreme_days_frame (dataset : option HistoricalTemps)
        (t : terminal) :
  let r := print_extreme_days keyboard py_float dataset t in
  snd (fst r) = dataset
  /\ requested (snd r) = requested t
  /\ typed (snd r) = match dataset with
                     | None => typed t
                     | Some _ => S (typed t)
                     end.
Proof.
  destruct dataset as [o|]; [|repeat split].
  unfold print_extreme_days, input; cbn [typed requested shown].
  destruct (py_float (keyboard (typed t))) as [threshold|]; [|repeat split].
  pose proof (extreme_days_state threshold
                {| self := o; sent := requested t |}) as Hst.
  destruct (extreme_days threshold {| self := o; sent := requested t |})
    as [[l|e] st]; simpl in Hst; subst st; cbn zeta.
  - rewrite print_each_lines. repeat split.
  - repeat split.
Qed.

(** X14.  What [print_extreme_days] writes for a dataset.  After the
    question: for an answer [float] rejects, the line that asks for a valid
    temperature and nothing else; for a threshold, on a series of numbers,
    the line with the count of the days above it and then one line per such
    day, in the order of the series, the count being the number of those
    lines; on a series with an entry that is not a number, nothing, and
    [TypeError] leaves the function. *)
Theorem print_extreme_days_prints (o : HistoricalTemps) (t : terminal) :
  let asked :=
    {| typed := S (typed t); requested := requested t;
       shown := (shown t ++ [prompt "List days above what temperature? "])%list
    |} in
  (py_float (keyboard (typed t)) = None ->
   print_extreme_days keyboard py_float (Some o) t
   = (Ok tt, Some o, print [Text "Please enter a valid temperature"] asked))
  /\ (forall threshold : num,
         py_float (keyboard (typed t)) = Some threshold ->
         (forallb is_numeric (_temp_list o) = true ->
          let hot := filter (above threshold) (_temp_list o) in
          print_extreme_days keyboard py_float (Some o) t
          = (Ok tt, Some o,
             {| typed := S (typed t); requested := requested t;
                shown := (shown asked
                          ++ [Text "There are ";
                              Value (SNum (num_of_len (List.length hot)));
                              Text " days above "; Value (SNum threshold);
                              Text " in "; Value (_loc_name o)]
                          :: map extreme_line hot)%list |}))
         /\ (forallb is_numeric (_temp_list o) = false ->
             print_extreme_days keyboard py_float (Some o) t
             = (Raise TypeError, Some o, asked))).
Proof.
  intros asked. split.
  - intros Hf. unfold print_extreme_days, input; cbn [typed requested shown].
    rewrite Hf. reflexivity.
  - intros threshold Hf. split.
    + intros Hn hot.
      unfold print_extreme_days, input; cbn [typed requested shown].
      rewrite Hf. unfold extreme_days, bind, get_self, lift, ret.
      cbn [self sent].
      rewrite (comprehension_filter threshold _ Hn). cbn zeta.
      rewrite print_each_lines. unfold print, after_call, loc_name; simpl.
      rewrite <- app_assoc. reflexivity.
    + intros Hn.
      unfold print_extreme_days, input; cbn [typed requested shown].
      rewrite Hf. unfold extreme_days, bind, get_self, lift, ret.
      cbn [self sent].
      rewrite (comprehension_raises threshold _ Hn). reflexivity.
Qed.

(** ** [print_top_five_days] *)

(** X15.  On a dataset whose temperatures are numbers [print_top_five_days]
    asks nothing, sends nothing and leaves the dataset alone; it writes the
    line that names the place and the two dates of the range, and then one
    line per entry of [top_x_days(5)]: five lines, or as many as the series
    has entries when it has fewer. *)
Theorem print_top_five_days_prints (o : HistoricalTemps) (t : terminal) :
  forallb is_numeric (_temp_list o) = true ->
  exists top_5_days : list point,
    fst (top_x_days 5 {| self := o; sent := requested t |}) = Ok top_5_days
    /\ List.length top_5_days = Nat.min 5 (List.length (_temp_list o))
    /\ print_top_five_days (Some o) t
       = (Ok tt, Some o,
          {| typed := typed t; requested := requested t;
             shown := (shown t
                       ++ [Text "Following are the hottest five days in ";
                           Value (_loc_name o); Text " on record from ";
                           Value (SStr (_start o)); Text " to ";
                           Value (SStr (_end o))]
                       :: map top_line top_5_days)%list |}).
Proof.
  intros Hn.
  exists (firstn 5 (rev (sort_numbers (rev (_temp_list o))))).
  assert (Htop : top_x_days 5 {| self := o; sent := requested t |}
                 = (Ok (firstn 5 (rev (sort_numbers (rev (_temp_list o))))),
                    {| self := o; sent := requested t |})).
  { unfold top_x_days, bind, get_self, lift, ret. cbn [self sent].
    rewrite (sorted_reverse_numeric _ Hn). reflexivity. }
  split; [rewrite Htop; reflexivity|]. split.
  - rewrite length_firstn, (Permutation_length (sorted_reverse_perm _)).
    reflexivity.
  - unfold print_top_five_days. rewrite Htop. cbn zeta.
    rewrite print_each_lines.
    unfold print, after_call, loc_name, start, end_; simpl.
    rewrite <- app_assoc. reflexivity.
Qed.

(** ** [change_dates] *)

(** [change_dates] on a dataset, by the outcomes of its two assignments. *)
Lemma change_dates_unfold (o : HistoricalTemps) (t : terminal) :
  change_dates archive keyboard (Some o) t
  = let ask_start := prompt "Please enter a new start date (YYYY-MM-DD): " in
    let ask_end := prompt "Please enter a new end date (YYYY-MM-DD): " in
    match set_start archive (keyboard (typed t))
                    {| self := o; sent := requested t |} with
    | (Raise e, st) =>
        if is_LookupError e
        then (Ok tt, Some (self st),
              {| typed := S (typed t); requested := sent st;
                 shown := (shown t ++ [ask_start; start_not_changed])%list |})
        else (Raise e, Some (self st),
              {| typed := S (typed t); requested := sent st;
                 shown := (shown t ++ [ask_start])%list |})
    | (Ok _, st) =>
        match set_end archive (keyboard (S (typed t))) st with
        | (Raise e, st') =>
            if is_LookupError e
            then (Ok tt, Some (self st'),
                  {| typed := S (S (typed t)); requested := sent st';
                     shown := (shown t
                               ++ [ask_start; ask_end; end_not_changed])%list
                  |})
            else (Raise e, Some (self st'),
                  {| typed := S (S (typed t)); requested := sent st';
                     shown := (shown t ++ [ask_start; ask_end])%list |})
        | (Ok _, st') =>
            (Ok tt, Some (self st'),
             {| typed := S (S (typed t)); requested := sent st';
                shown := (shown t ++ [ask_start; ask_end])%list |})
        end
    end.
Proof.
  unfold change_dates, input; cbn [typed requested shown]. cbn zeta.
  destruct (set_start archive (keyboard (typed t))
                      {| self := o; sent := requested t |})
    as [[u|e] [o1 k1]].
  - cbn [typed requested shown after_call self sent].
    destruct (set_end archive (keyboard (S (typed t)))
                      {| self := o1; sent := k1 |}) as [[u'|e'] [o2 k2]].
    + unfold after_call; simpl. rewrite <- app_assoc. reflexivity.
    + destruct (is_LookupError e'); unfold print, after_call; simpl;
        rewrite <- ?app_assoc; reflexivity.
  - destruct (is_LookupError e); unfold print, after_call; simpl;
      rewrite <- ?app_assoc; reflexivity.
Qed.

(** X16.  When the reload for the typed start date fails, [change_dates]
    never asks for the end date.  If the reload after the rollback returns,
    or raises [KeyError], the function prints that the start date could not
    be changed and returns; the dataset then holds the dates from before the
    call.  Any other exception of that second reload leaves the function,
    with nothing printed. *)
Theorem change_dates_start_rejected (o : HistoricalTemps) (t : terminal)
        (e1 : exn) :
  let st := {| self := o; sent := requested t |} in
  let ask_start := prompt "Please enter a new start date (YYYY-MM-DD): " in
  let told :=
    {| typed := S (typed t); requested := S (S (requested t));
       shown := (shown t ++ [ask_start; start_not_changed])%list |} in
  fst (_load_temps archive (with_start (keyboard (typed t)) st)) = Raise e1 ->
  (forall reloaded : list point,
      fst (_load_temps archive (one_more st)) = Ok reloaded ->
      change_dates archive keyboard (Some o) t
      = (Ok tt, Some (set_temp_list reloaded o), told))
  /\ (fst (_load_temps archive (one_more st)) = Raise KeyError ->
      change_dates archive keyboard (Some o) t = (Ok tt, Some o, told))
  /\ (forall e2 : exn,
         fst (_load_temps archive (one_more st)) = Raise e2 ->
         e2 <> KeyError ->
         change_dates archive keyboard (Some o) t
         = (Raise e2, Some o,
            {| typed := S (typed t); requested := S (S (requested t));
               shown := (shown t ++ [ask_start])%list |})).
Proof.
  intros st ask_start told H1.
  split; [|split].
  - intros reloaded H2.
    rewrite change_dates_unfold, set_start_unfold. fold st.
    rewrite (load_temps_raise _ _ H1), (load_temps_ok _ _ H2). reflexivity.
  - intros H2.
    rewrite change_dates_unfold, set_start_unfold. fold st.
    rewrite (load_temps_raise _ _ H1), (load_temps_raise _ _ H2).
    reflexivity.
  - intros e2 H2 Hne.
    rewrite change_dates_unfold, set_start_unfold. fold st.
    rewrite (load_temps_raise _ _ H1), (load_temps_raise _ _ H2).
    destruct (load_temps_raises _ _ H2) as [_ Hnl].
    destruct e2; try reflexivity; contradiction.
Qed.

(** X17.  A change of the start date that went through stays when the
    change of the end date is rejected: after the reload for the new start
    returned, the reload for the typed end date failed and the reload after
    the rollback returned, the function prints that the end date could not
    be changed, and the dataset holds the new start date, the end date from
    before the call and the series of the last reload.  Three requests were
    sent. *)
Theorem change_dates_end_rejected (o : HistoricalTemps) (t : terminal)
        (first reloaded : list point) (e : exn) :
  let st := {| self := o; sent := requested t |} in
  let new_start := keyboard (typed t) in
  let new_end := keyboard (S (typed t)) in
  let st1 := loaded first (with_start new_start st) in
  fst (_load_temps archive (with_start new_start st)) = Ok first ->
  fst (_load_temps archive (with_end new_end st1)) = Raise e ->
  fst (_load_temps archive (one_more st1)) = Ok reloaded ->
  let o' := set_temp_list reloaded (set_start_field new_start o) in
  change_dates archive keyboard (Some o) t
  = (Ok tt, Some o',
     {| typed := S (S (typed t)); requested := S (S (S (requested t)));
        shown := (shown t
                  ++ [prompt "Please enter a new start date (YYYY-MM-DD): ";
                      prompt "Please enter a new end date (YYYY-MM-DD): ";
                      end_not_changed])%list |})
  /\ _start o' = new_start
  /\ _end o' = _end o
  /\ _temp_list o' = reloaded.
Proof.
  intros st new_start new_end st1 H1 H2 H3 o'.
  split; [|repeat split].
  rewrite change_dates_unfold, set_start_unfold. fold st new_start.
  rewrite (load_temps_ok _ _ H1). fold st1. cbn iota zeta.
  rewrite set_end_unfold. fold new_end.
  rewrite (load_temps_raise _ _ H2), (load_temps_ok _ _ H3). reflexivity.
Qed.

(** X18.  When both reloads return, [change_dates] returns without a word
    beyond its two questions: the dataset holds the two typed dates and the
    series that the second reload fetched for them, and two requests were
    sent. *)
Theorem change_dates_changes_both (o : HistoricalTemps) (t : terminal)
        (first second : list point) :
  let st := {| self := o; sent := requested t |} in
  let new_start := keyboard (typed t) in
  let new_end := keyboard (S (typed t)) in
  let st1 := loaded first (with_start new_start st) in
  fst (_load_temps archive (with_start new_start st)) = Ok first ->
  fst (_load_temps archive (with_end new_end st1)) = Ok second ->
  let o' := set_temp_list second
              (set_end_field new_end (set_start_field new_start o)) in
  change_dates archive keyboard (Some o) t
  = (Ok tt, Some o',
     {| typed := S (S (typed t)); requested := S (S (requested t));
        shown := (shown t
                  ++ [prompt "Please enter a new start date (YYYY-MM-DD): ";
                      prompt "Please enter a new end date (YYYY-MM-DD): "])%list
     |})
  /\ _start o' = new_start
  /\ _end o' = new_end
  /\ _temp_list o' = second.
Proof.
  intros st new_start new_end st1 H1 H2 o'.
  split; [|repeat split].
  rewrite change_dates_unfold, set_start_unfold. fold st new_start.
  rewrite (load_temps_ok _ _ H1). fold st1. cbn iota zeta.
  rewrite set_end_unfold. fold new_end.
  rewrite (load_temps_ok _ _ H2). reflexivity.
Qed.

(** ** [print_menu] and [menu] *)

Lemma print_menu_lines (one two : option HistoricalTemps) (t : terminal) :
  print_menu one two t
  = {| typed := typed t; requested := requested t;
       shown := (shown t ++ menu_lines one two)%list |}.
Proof.
  unfold print_menu, print, menu_lines.
  destruct one, two; simpl; rewrite <- !app_assoc; reflexivity.
Qed.

(** One pass of the loop, from the terminal as the question left it. *)
Lemma menu_body_unfold (one two : option HistoricalTemps) (t : terminal) :
  menu_body archive geocoder keyboard py_float py_int one two t
  = let asked :=
      {| typed := S (typed t); requested := requested t;
         shown := (shown t ++ menu_lines one two
                   ++ [prompt "What is your choice? "])%list |} in
    let user_choice := keyboard (typed t) in
    match py_int user_choice with
    | None =>
        (Ok (Continue, (one, two)),
         print [Text "Please enter a number only"] asked)
    | Some _ =>
        if String.eqb user_choice "1" then
          match create_dataset archive geocoder keyboard asked with
          | (Ok created, t') => (Ok (Continue, (created, two)), t')
          | (Raise e, t') => (Raise e, t')
          end
        else if String.eqb user_choice "2" then
          match create_dataset archive geocoder keyboard asked with
          | (Ok created, t') => (Ok (Continue, (one, created)), t')
          | (Raise e, t') => (Raise e, t')
          end
        else if String.eqb user_choice "3" then
          match compare_average_temps archive
                  {| dataset_one := one; dataset_two := two;
                     requests := requested t; printed := shown asked |} with
          | (Ok _, c) =>
              (Ok (Continue, (dataset_one c, dataset_two c)),
               {| typed := S (typed t); requested := requests c;
                  shown := printed c |})
          | (Raise e, c) =>
              (Raise e,
               {| typed := S (typed t); requested := requests c;
                  shown := printed c |})
          end
        else if String.eqb user_choice "4" then
          on_one two (print_extreme_days keyboard py_float one asked)
        else if String.eqb user_choice "5" then
          on_one two (print_top_five_days one asked)
        else if String.eqb user_choice "6" then
          on_one two (change_dates archive keyboard one asked)
        else if String.eqb user_choice "7" then
          on_two one (change_dates archive keyboard two asked)
        else if String.eqb user_choice "8" then
          (Ok (Continue, (one, two)),
           print [Text "Selection eight is not functional yet"] asked)
        else if String.eqb user_choice "9" then
          (Ok (Break, (one, two)), print goodbye asked)
        else
          (Ok (Continue, (one, two)),
           print [Text "That wasn't a valid selection"] asked)
    end.
Proof.
  unfold menu_body, input. rewrite print_menu_lines.
  cbn [typed requested shown]. rewrite <- app_assoc. reflexivity.
Qed.

Lemma not_listed (s : string) :
  is_listed s = false ->
  String.eqb s "1" = false /\ String.eqb s "2" = false
  /\ String.eqb s "3" = false /\ String.eqb s "4" = false
  /\ String.eqb s "5" = false /\ String.eqb s "6" = false
  /\ String.eqb s "7" = false /\ String.eqb s "8" = false
  /\ String.eqb s "9" = false.
Proof.
  unfold is_listed, listed; simpl. intros L.
  repeat (apply orb_false_iff in L as [? L]).
  repeat split; assumption.
Qed.

(** X19.  A pass of the menu on an answer it does not act on.  An answer
    [int] rejects gets the line that asks for a number; an answer [int]
    accepts but that is not, as typed, one of the strings 1 to 9 (such as
    10, or 1 with a zero or a sign in front) gets the line that calls it
    invalid.  In both cases the loop goes on, the two slots are as they
    were and no request is sent. *)
Theorem menu_body_rejects (one two : option HistoricalTemps) (t : terminal) :
  let asked :=
    {| typed := S (typed t); requested := requested t;
       shown := (shown t ++ menu_lines one two
                 ++ [prompt "What is your choice? "])%list |} in
  (py_int (keyboard (typed t)) = None ->
   menu_body archive geocoder keyboard py_float py_int one two t
   = (Ok (Continue, (one, two)),
      print [Text "Please enter a number only"] asked))
  /\ (py_int (keyboard (typed t)) <> None ->
      is_listed (keyboard (typed t)) = false ->
      menu_body archive geocoder keyboard py_float py_int one two t
      = (Ok (Continue, (one, two)),
         print [Text "That wasn't a valid selection"] asked)).
Proof.
  intros asked. split.
  - intros Hi. rewrite menu_body_unfold; cbn zeta. rewrite Hi. reflexivity.
  - intros Hi Hl. rewrite menu_body_unfold; cbn zeta.
    destruct (py_int (keyboard (typed t))); [|contradiction].
    destruct (not_listed _ Hl)
      as (E1 & E2 & E3 & E4 & E5 & E6 & E7 & E8 & E9).
    rewrite E1, E2, E3, E4, E5, E6, E7, E8, E9. reflexivity.
Qed.

(** X20.  A load that fails empties the slot.  On choice 1 (or 2) the
    slot is assigned what [create_dataset] returns: when the typed postal
    code has no match, that is [None], and the dataset the slot held before
    is gone; the other slot is untouched. *)
Theorem menu_failed_load_empties_slot (one two : option HistoricalTemps)
        (t : terminal) :
  let told :=
    {| typed := S (S (typed t)); requested := requested t;
       shown := (shown t ++ menu_lines one two
                 ++ [prompt "What is your choice? ";
                     prompt "Please enter a zipcode "; not_loaded])%list |} in
  py_int (keyboard (typed t)) <> None ->
  num_isnan num_nan = true ->
  geocoder (keyboard (S (typed t))) = None ->
  (keyboard (typed t) = "1" ->
   menu_body archive geocoder keyboard py_float py_int one two t
   = (Ok (Continue, (None, two)), told))
  /\ (keyboard (typed t) = "2" ->
      menu_body archive geocoder keyboard py_float py_int one two t
      = (Ok (Continue, (one, None)), told)).
Proof.
  intros told Hi Hnan Hgeo.
  assert (Hguard : num_isnan (snd (fst (zip_to_loc_info
                                          geocoder
                                          (keyboard (S (typed t)))))) = true).
  { unfold zip_to_loc_info, query_postal_code. rewrite Hgeo. exact Hnan. }
  split; intros Hc; rewrite menu_body_unfold; cbn zeta;
    (destruct (py_int (keyboard (typed t))); [|contradiction]);
    rewrite Hc; cbn [String.eqb Ascii.eqb Bool.eqb];
    unfold create_dataset, input; cbn [typed requested shown];
    rewrite (init_guard archive geocoder _ _ _ _ Hguard);
    unfold print, told; simpl; rewrite <- !app_assoc; reflexivity.
Qed.

(** X21.  A load that fails otherwise ends the session.  On choice 1 or 2,
    for a postal code the geocoder knows, an exception of the first load
    other than [KeyError] (the transport failure of an archive out of reach,
    the decoding error of an answer that is not JSON) is not caught by
    [create_dataset] nor by [menu]: the loop ends with that exception. *)
Theorem menu_ends_on_load_failure (one two : option HistoricalTemps)
        (t : terminal) (lat lon : num) (name : scalar) (e : exn)
        (passes : nat) :
  let zip := keyboard (S (typed t)) in
  let o := created zip default_start default_end lat lon name in
  keyboard (typed t) = "1" \/ keyboard (typed t) = "2" ->
  py_int (keyboard (typed t)) <> None ->
  geocoder zip = Some (lat, lon, name) ->
  num_isnan lon = false ->
  fst (_load_temps archive {| self := o; sent := requested t |}) = Raise e ->
  e <> KeyError ->
  menu_loop archive geocoder keyboard py_float py_int (S passes) one two t
  = Some (Raise e,
          {| typed := S (S (typed t)); requested := S (requested t);
             shown := (shown t ++ menu_lines one two
                       ++ [prompt "What is your choice? ";
                           prompt "Please enter a zipcode "])%list |}).
Proof.
  intros zip o Hc Hi Hgeo Hlon Hl Hne.
  assert (Hcreate :
            create_dataset archive geocoder keyboard
              {| typed := S (typed t); requested := requested t;
                 shown := (shown t ++ menu_lines one two
                           ++ [prompt "What is your choice? "])%list |}
            = (Raise e,
               {| typed := S (S (typed t)); requested := S (requested t);
                  shown := (shown t ++ menu_lines one two
                            ++ [prompt "What is your choice? ";
                                prompt "Please enter a zipcode "])%list |})).
  { rewrite (@create_dataset_known_unfold
               {| typed := S (typed t); requested := requested t;
                  shown := (shown t ++ menu_lines one two
                            ++ [prompt "What is your choice? "])%list |}
               lat lon name Hgeo Hlon).
    cbn [typed requested shown]. fold zip o.
    rewrite (load_temps_raise _ _ Hl).
    destruct (load_temps_raises _ _ Hl) as [_ Hnl].
    assert (Hcaught : is_LookupError e = false)
      by (destruct e; try reflexivity; contradiction).
    rewrite Hcaught. simpl. rewrite <- !app_assoc. reflexivity. }
  cbn [menu_loop]. rewrite menu_body_unfold; cbn zeta.
  destruct (py_int (keyboard (typed t))); [|contradiction].
  destruct Hc as [Hc|Hc]; rewrite Hc; cbn [String.eqb Ascii.eqb Bool.eqb];
    rewrite Hcreate; reflexivity.
Qed.

(** ** The loop and [main] *)

(** A pass on an answer the menu does not act on goes on to the next pass
    with the slots as they were. *)
Lemma menu_body_rejected (one two : option HistoricalTemps) (t : terminal) :
  py_int (keyboard (typed t)) = None
  \/ is_listed (keyboard (typed t)) = false ->
  exists message : line,
    menu_body archive geocoder keyboard py_float py_int one two t
    = (Ok (Continue, (one, two)),
       {| typed := S (typed t); requested := requested t;
          shown := (shown t ++ menu_lines one two
                    ++ [prompt "What is your choice? "; message])%list |}).
Proof.
  intros Hr. rewrite menu_body_unfold; cbn zeta.
  destruct (py_int (keyboard (typed t))) as [n|] eqn:Hi.
  - destruct Hr as [Hr|Hr]; [discriminate|].
    destruct (not_listed _ Hr)
      as (E1 & E2 & E3 & E4 & E5 & E6 & E7 & E8 & E9).
    rewrite E1, E2, E3, E4, E5, E6, E7, E8, E9.
    exists [Text "That wasn't a valid selection"].
    unfold print; simpl. rewrite <- !app_assoc. reflexivity.
  - exists [Text "Please enter a number only"].
    unfold print; simpl. rewrite <- !app_assoc. reflexivity.
Qed.

(** After [k] answers the menu does not act on, the answer 9 ends the
    loop, whatever number of passes above [k] it is allowed. *)
Lemma menu_loop_rejections (k : nat) :
  forall (one two : option HistoricalTemps) (t : terminal) (passes : nat),
    (forall i : nat,
        i < k ->
        py_int (keyboard (typed t + i)) = None
        \/ is_listed (keyboard (typed t + i)) = false) ->
    keyboard (typed t + k) = "9" ->
    py_int "9" <> None ->
    k < passes ->
    exists between : list line,
      menu_loop archive geocoder keyboard py_float py_int passes one two t
      = Some (Ok tt,
              {| typed := typed t + S k; requested := requested t;
                 shown := (shown t ++ menu_lines one two ++ between
                           ++ [goodbye])%list |}).
Proof.
  induction k as [|k IH]; intros one two t passes Hrej Hnine Hint Hp;
    (destruct passes as [|passes]; [lia|]); cbn [menu_loop].
  - rewrite Nat.add_0_r in Hnine.
    rewrite menu_body_unfold; cbn zeta. rewrite Hnine.
    destruct (py_int "9"); [|contradiction].
    exists [prompt "What is your choice? "].
    unfold print; simpl. rewrite Nat.add_1_r, <- !app_assoc. reflexivity.
  - destruct (menu_body_rejected one two t) as [message Hbody].
    { specialize (Hrej 0 (Nat.lt_0_succ k)).
      rewrite Nat.add_0_r in Hrej. exact Hrej. }
    rewrite Hbody.
    destruct (IH one two
                 {| typed := S (typed t); requested := requested t;
                    shown := (shown t ++ menu_lines one two
                              ++ [prompt "What is your choice? ";
                                  message])%list |} passes)
      as [between Hloop].
    + intros i Hi. cbn [typed]. rewrite Nat.add_succ_comm.
      apply Hrej. lia.
    + cbn [typed]. rewrite Nat.add_succ_comm. exact Hnine.
    + exact Hint.
    + lia.
    + rewrite Hloop. cbn [typed requested shown].
      exists ([prompt "What is your choice? "; message]
              ++ menu_lines one two ++ between)%list.
      rewrite Nat.add_succ_comm, <- !app_assoc. reflexivity.
Qed.

(** X22.  A session that is quit.  [main] asks for the name and greets
    the user by it, then runs the menu on two empty slots.  When the next
    [k] answers are ones the menu does not act on and the one after them is
    9, the program returns: it has read [k + 2] answers and sent no request;
    what it wrote starts with the question for the name, the greeting and
    the menu of two empty slots, and ends with the goodbye line. *)
Theorem main_greets_and_quits (k : nat) (t : terminal) (passes : nat) :
  (forall i : nat,
      i < k ->
      py_int (keyboard (S (typed t) + i)) = None
      \/ is_listed (keyboard (S (typed t) + i)) = false) ->
  keyboard (S (typed t) + k) = "9" ->
  py_int "9" <> None ->
  k < passes ->
  exists between : list line,
    main archive geocoder keyboard py_float py_int passes t
    = Some (Ok tt,
            {| typed := typed t + k + 2; requested := requested t;
               shown := (shown t
                         ++ [prompt "Please enter your name: ";
                             [Text "Hi "; Value (SStr (keyboard (typed t)));
                              Text ", let's explore some historical temperatures."]]
                         ++ menu_lines None None ++ between
                         ++ [goodbye])%list |}).
Proof.
  intros Hrej Hnine Hint Hp.
  unfold main, menu, input, print; cbn [typed requested shown].
  destruct (@menu_loop_rejections k None None
              {| typed := S (typed t); requested := requested t;
                 shown := ((shown t ++ [[Text "Please enter your name: "]])
                           ++ [[Text "Hi "; Value (SStr (keyboard (typed t)));
                                Text ", let's explore some historical temperatures."]])%list
              |} passes Hrej Hnine Hint Hp) as [between Hloop].
  exists between. refine (eq_trans Hloop _). cbn [typed requested shown].
  unfold prompt. rewrite <- !app_assoc. simpl.
  do 3 f_equal. lia.
Qed.

(** ** [compare_average_temps] on two loaded datasets *)

Lemma average_temp_numbers (st : state) (l : list point) :
  fst (_load_temps archive st) = Ok l ->
  forallb is_numeric l = true ->
  l <> [] ->
  exists avg : num, average_temp archive st = (Ok avg, loaded l st).
Proof.
  intros Hl Hn Hne.
  rewrite average_temp_unfold, (load_temps_ok _ _ Hl).
  rewrite (sum_loop_numbers _ Hn); simpl.
  destruct l; [contradiction|]. eexists; reflexivity.
Qed.

(** X23.  A comparison reloads both datasets.  When both reloads return
    series of numbers that are not empty, the comparison returns after two
    requests and two lines, and each slot holds its dataset with the series
    just reloaded in place of the one it had. *)
Theorem compare_average_temps_reloads_both
        (c : console) (one two : HistoricalTemps) (l1 l2 : list point) :
  dataset_one c = Some one ->
  dataset_two c = Some two ->
  fst (_load_temps archive {| self := one; sent := requests c |}) = Ok l1 ->
  fst (_load_temps archive {| self := two; sent := S (requests c) |})
  = Ok l2 ->
  forallb is_numeric l1 = true -> l1 <> [] ->
  forallb is_numeric l2 = true -> l2 <> [] ->
  let c' := snd (compare_average_temps archive c) in
  fst (compare_average_temps archive c) = Ok tt
  /\ dataset_one c' = Some (set_temp_list l1 one)
  /\ dataset_two c' = Some (set_temp_list l2 two)
  /\ requests c' = S (S (requests c))
  /\ List.length (printed c') = List.length (printed c) + 2.
Proof.
  intros H1 H2 L1 L2 N1 E1 N2 E2 c'. subst c'.
  destruct (average_temp_numbers _ L1 N1 E1) as [avg1 A1].
  destruct (average_temp_numbers _ L2 N2 E2) as [avg2 A2].
  unfold compare_average_temps. rewrite H1, H2, A1.
  cbn [loaded self sent]. rewrite A2. cbn.
  repeat split. rewrite length_app. reflexivity.
Qed.

(** X24.  A comparison that fails prints nothing.  When the reload of the
    first dataset raises, the comparison raises the same exception after one
    request and both datasets are as they were: the second is not reloaded.
    When the first average returns and the reload of the second dataset
    raises, the comparison raises that exception after two requests; the
    first dataset keeps its reloaded series and the second is as it was. *)
Theorem compare_average_temps_failure
        (c : console) (one two : HistoricalTemps) :
  dataset_one c = Some one ->
  dataset_two c = Some two ->
  (forall e : exn,
      fst (_load_temps archive {| self := one; sent := requests c |})
      = Raise e ->
      compare_average_temps archive c
      = (Raise e,
         {| dataset_one := Some one; dataset_two := Some two;
            requests := S (requests c); printed := printed c |}))
  /\ (forall (l1 : list point) (e : exn),
         fst (_load_temps archive {| self := one; sent := requests c |})
         = Ok l1 ->
         forallb is_numeric l1 = true -> l1 <> [] ->
         fst (_load_temps archive {| self := two; sent := S (requests c) |})
         = Raise e ->
         compare_average_temps archive c
         = (Raise e,
            {| dataset_one := Some (set_temp_list l1 one);
               dataset_two := Some two;
               requests := S (S (requests c)); printed := printed c |})).
Proof.
  intros H1 H2. split.
  - intros e L1. unfold compare_average_temps. rewrite H1, H2.
    rewrite average_temp_unfold, (load_temps_raise _ _ L1). reflexivity.
  - intros l1 e L1 N1 E1 L2.
    destruct (average_temp_numbers _ L1 N1 E1) as [avg1 A1].
    unfold compare_average_temps. rewrite H1, H2, A1.
    cbn [loaded self sent].
    rewrite average_temp_unfold, (load_temps_raise _ _ L2). reflexivity.
Qed.

End ShellProperties.

(** * The further properties on concrete sessions *)

(** ** The class *)

Lemma convert_missing_array_witness :
  _convert_json_to_list DemoShell.payload_without_temperatures
  = Raise UnboundLocalError.
Proof.
  refine (proj1 (convert_missing_array Demo.archive_steady
                   [("daily", JObj [("time", JArr [SStr "2020-01-01"])])]
                   (daily_members := [("time", JArr [SStr "2020-01-01"])])
                   _ _)).
  - reflexivity.
  - right; reflexivity.
Defined.

Lemma init_known_zip_witness :
  __init__ Demo.archive_two_days Demo.geocoder "94041"
           default_start default_end 0
  = (Ok {| _zip_code := "94041"; _start := "1950-08-13";
           _end := "2023-08-25"; _lat := 37.5%float; _lon := (-122)%float;
           _loc_name := SStr "Mountain View";
           _temp_list := [Demo.day "2020-01-01" 10;
                          Demo.day "2020-01-02" 20] |}, 1)
  /\ __init__ Demo.archive_down Demo.geocoder "94041"
              default_start default_end 0
     = (Raise RequestException, 1).
Proof.
  split.
  - refine (proj1 (init_known_zip Demo.archive_two_days Demo.geocoder "94041"
                     default_start default_end 0
                     (lat := 37.5%float) (lon := (-122)%float)
                     (name := SStr "Mountain View") _ _)
                  [Demo.day "2020-01-01" 10; Demo.day "2020-01-02" 20] _);
      evaluate.
  - refine (proj2 (init_known_zip Demo.archive_down Demo.geocoder "94041"
                     default_start default_end 0
                     (lat := 37.5%float) (lon := (-122)%float)
                     (name := SStr "Mountain View") _ _)
                  RequestException _);
      evaluate.
Defined.

Lemma setters_store_new_date_witness :
  let st := Demo.session Demo.mountain_view in
  set_start Demo.archive_two_days "2019-12-31" st
  = (Ok tt,
     loaded [Demo.day "2020-01-01" 10; Demo.day "2020-01-02" 20]
            (with_start "2019-12-31" st))
  /\ set_end Demo.archive_two_days "2020-01-02" st
     = (Ok tt,
        loaded [Demo.day "2020-01-01" 10; Demo.day "2020-01-02" 20]
               (with_end "2020-01-02" st)).
Proof.
  intros st.
  destruct (setters_store_new_date Demo.archive_two_days st)
    as [Hstart Hend].
  split.
  - refine (proj1 (Hstart "2019-12-31" _ _)); evaluate.
  - refine (proj1 (Hend "2020-01-02" _ _)); evaluate.
Defined.

Lemma setters_change_date_iff_return_witness :
  let st := Demo.session Demo.mountain_view in
  _start (self (snd (set_start Demo.archive_two_days "2019-12-31" st)))
  = "2019-12-31"
  /\ _start (self (snd (set_start Demo.archive_steady "2020-13-01" st)))
     = "2020-01-01"
  /\ sent (snd (set_end Demo.archive_down "2020-01-02" st)) = 2.
Proof.
  intros st.
  destruct (setters_change_date_iff_return Demo.archive_two_days st)
    as [Hreturn _].
  destruct (setters_change_date_iff_return Demo.archive_steady st)
    as [Hraise _].
  destruct (setters_change_date_iff_return Demo.archive_down st)
    as [_ Hdown].
  split; [|split].
  - refine (proj1 (proj1 (proj2 (Hreturn "2019-12-31")) _)); evaluate.
  - refine (proj1 (proj2 (proj2 (Hraise "2020-13-01")) LookupError _));
      evaluate.
  - refine (proj2 (proj2 (proj2 (Hdown "2020-01-02")) RequestException _));
      evaluate.
Defined.

(** ** The queries *)

Lemma extreme_days_raises_type_error_witness :
  extreme_days 25%float (Demo.session DemoShell.with_null)
  = (Raise TypeError, Demo.session DemoShell.with_null).
Proof.
  refine (proj1 (extreme_days_raises_type_error
                   (Demo.session DemoShell.with_null) 25%float) _).
  evaluate.
Defined.

Lemma average_temp_failures_witness :
  let st := Demo.session Demo.mountain_view in
  average_temp Demo.archive_down st = (Raise RequestException, one_more st)
  /\ average_temp DemoShell.archive_empty st
     = (Raise ZeroDivisionError, loaded [] st)
  /\ average_temp DemoShell.archive_null st
     = (Raise TypeError, loaded [(SStr "2020-01-01", SNull)] st).
Proof.
  intros st.
  destruct (average_temp_failures Demo.archive_down st) as (Hload & _).
  destruct (average_temp_failures DemoShell.archive_empty st)
    as (_ & Hempty & _).
  destruct (average_temp_failures DemoShell.archive_null st)
    as (_ & _ & Hnull).
  split; [|split].
  - refine (proj1 (Hload RequestException _)); evaluate.
  - refine (proj1 (Hempty _)); evaluate.
  - refine (proj1 (Hnull [(SStr "2020-01-01", SNull)] _ _)); evaluate.
Defined.

Lemma top_x_days_counts_witness :
  exists full : list (point (num := float)),
    fst (top_x_days 3 (Demo.session Demo.three_days)) = Ok full
    /\ Permutation full (_temp_list Demo.three_days)
    /\ descending full
    /\ filter (tie (Demo.day "2020-01-01" 20)) full
       = [Demo.day "2020-01-01" 20; Demo.day "2020-01-03" 20]
    /\ fst (top_x_days 0 (Demo.session Demo.three_days)) = Ok []
    /\ fst (top_x_days 7 (Demo.session Demo.three_days)) = Ok full
    /\ fst (top_x_days (-1) (Demo.session Demo.three_days))
       = Ok (firstn 2 full).
Proof.
  destruct (top_x_days_counts (Demo.session Demo.three_days) eq_refl)
    as (full & Hfull & Hperm & Hsorted & Hzero & Hall & Hneg).
  destruct (Hsorted three_days_ordered) as [Hdesc Hstable].
  exists full. split; [exact Hfull|]. split; [exact Hperm|].
  split; [exact Hdesc|]. split; [|split; [exact Hzero|split]].
  - refine (eq_trans (Hstable (Demo.day "2020-01-01" 20) _) _);
      [left; reflexivity | evaluate].
  - apply Hall. simpl. lia.
  - refine (proj1 (Hneg 1 _)). lia.
Defined.

Lemma top_x_days_prefix_witness :
  fst (top_x_days 1 (Demo.session Demo.three_days))
  = Ok (firstn 1 [Demo.day "2020-01-02" 30; Demo.day "2020-01-01" 20]).
Proof.
  refine (top_x_days_prefix (Demo.session Demo.three_days)
            (m := 1) (n := 2) _ _).
  - lia.
  - evaluate.
Defined.

Lemma top_x_days_first_is_hottest_witness :
  exists (hottest : point (num := float)) (rest : list point),
    fst (top_x_days 5 (Demo.session Demo.three_days)) = Ok (hottest :: rest)
    /\ In hottest (_temp_list Demo.three_days)
    /\ (forall p : point,
           In p (_temp_list Demo.three_days) -> below hottest p = false).
Proof.
  refine (top_x_days_first_is_hottest (Demo.session Demo.three_days)
            (num_days := 5) eq_refl three_days_ordered _ _).
  - discriminate.
  - lia.
Defined.

(** ** The shell *)

Lemma create_dataset_unknown_zip_witness :
  create_dataset Demo.archive_steady Demo.geocoder (DemoShell.keys ["00000"])
                 DemoShell.fresh
  = (Ok None,
     {| typed := 1; requested := 0;
        shown := [prompt "Please enter a zipcode "; not_loaded] |}).
Proof.
  refine (create_dataset_unknown_zip Demo.archive_steady Demo.geocoder
            (DemoShell.keys ["00000"]) DemoShell.fresh _ _); evaluate.
Defined.

Lemma create_dataset_known_zip_witness :
  let asked :=
    {| typed := 1; requested := 1;
       shown := [prompt (num := float) "Please enter a zipcode "] |} in
  fst (create_dataset Demo.archive_two_days Demo.geocoder
                      (DemoShell.keys ["94041"]) DemoShell.fresh)
  = Ok (Some (set_temp_list
                [Demo.day "2020-01-01" 10; Demo.day "2020-01-02" 20]
                (created "94041" default_start default_end 37.5%float
                         (-122)%float (SStr "Mountain View"))))
  /\ create_dataset Demo.archive_rejecting Demo.geocoder
                    (DemoShell.keys ["94041"]) DemoShell.fresh
     = (Ok None, print not_loaded asked)
  /\ create_dataset Demo.archive_down Demo.geocoder
                    (DemoShell.keys ["94041"]) DemoShell.fresh
     = (Raise RequestException, asked).
Proof.
  intros asked. split; [|split].
  - refine (f_equal fst
              (proj1 (create_dataset_known_zip
                        Demo.archive_two_days Demo.geocoder
                        (DemoShell.keys ["94041"]) DemoShell.fresh
                        (lat := 37.5%float) (lon := (-122)%float)
                        (name := SStr "Mountain View") _ _)
                     [Demo.day "2020-01-01" 10; Demo.day "2020-01-02" 20]
                     _)); evaluate.
  - refine (proj1 (proj2 (create_dataset_known_zip
                            Demo.archive_rejecting Demo.geocoder
                            (DemoShell.keys ["94041"]) DemoShell.fresh
                            (lat := 37.5%float) (lon := (-122)%float)
                            (name := SStr "Mountain View") _ _)) _);
      evaluate.
  - refine (proj2 (proj2 (create_dataset_known_zip
                            Demo.archive_down Demo.geocoder
                            (DemoShell.keys ["94041"]) DemoShell.fresh
                            (lat := 37.5%float) (lon := (-122)%float)
                            (name := SStr "Mountain View") _ _))
                  RequestException _ _);
      try evaluate. discriminate.
Defined.

Lemma print_extreme_days_prints_witness :
  print_extreme_days (DemoShell.keys ["warm"]) DemoShell.float_of
                     (Some Demo.three_days) DemoShell.fresh
  = (Ok tt, Some Demo.three_days,
     {| typed := 1; requested := 0;
        shown := [prompt "List days above what temperature? ";
                  [Text "Please enter a valid temperature"]] |})
  /\ print_extreme_days (DemoShell.keys ["25"]) DemoShell.float_of
                        (Some Demo.three_days) DemoShell.fresh
     = (Ok tt, Some Demo.three_days,
        {| typed := 1; requested := 0;
           shown := [prompt "List days above what temperature? ";
                     [Text "There are "; Value (SNum (num_of_len 1));
                      Text " days above "; Value (SNum 25%float);
                      Text " in "; Value (SStr "Mountain View")];
                     [Value (SStr "2020-01-02"); Text ": ";
                      Value (SNum 30%float)]] |})
  /\ print_extreme_days (DemoShell.keys ["25"]) DemoShell.float_of
                        (Some DemoShell.with_null) DemoShell.fresh
     = (Raise TypeError, Some DemoShell.with_null,
        {| typed := 1; requested := 0;
           shown := [prompt "List days above what temperature? "] |}).
Proof.
  split; [|split].
  - refine (proj1 (print_extreme_days_prints
                     (DemoShell.keys ["warm"]) DemoShell.float_of
                     Demo.three_days DemoShell.fresh) _); evaluate.
  - refine (proj1 (proj2 (print_extreme_days_prints
                            (DemoShell.keys ["25"]) DemoShell.float_of
                            Demo.three_days DemoShell.fresh)
                         25%float _) _); evaluate.
  - refine (proj2 (proj2 (print_extreme_days_prints
                            (DemoShell.keys ["25"]) DemoShell.float_of
                            DemoShell.with_null DemoShell.fresh)
                         25%float _) _); evaluate.
Defined.

Lemma print_top_five_days_prints_witness :
  exists top_5_days : list (point (num := float)),
    List.length top_5_days = 3
    /\ print_top_five_days (Some Demo.three_days) DemoShell.fresh
       = (Ok tt, Some Demo.three_days,
          {| typed := 0; requested := 0;
             shown := [Text "Following are the hottest five days in ";
                       Value (SStr "Mountain View");
                       Text " on record from "; Value (SStr "2020-01-01");
                       Text " to "; Value (SStr "2020-01-03")]
                      :: map top_line top_5_days |}).
Proof.
  destruct (print_top_five_days_prints Demo.three_days DemoShell.fresh
              eq_refl) as (top & _ & Hlen & Hprint).
  exists top. split; [exact Hlen | exact Hprint].
Defined.

Lemma change_dates_start_rejected_witness :
  let told :=
    {| typed := 1; requested := 2;
       shown := [prompt (num := float)
                        "Please enter a new start date (YYYY-MM-DD): ";
                 start_not_changed] |} in
  change_dates Demo.archive_steady (DemoShell.keys ["2020-13-01"])
               (Some Demo.mountain_view) DemoShell.fresh
  = (Ok tt, Some Demo.mountain_view, told)
  /\ change_dates Demo.archive_rejecting (DemoShell.keys ["2020-13-01"])
                  (Some Demo.mountain_view) DemoShell.fresh
     = (Ok tt, Some Demo.mountain_view, told)
  /\ fst (fst (change_dates Demo.archive_down (DemoShell.keys ["2020-13-01"])
                            (Some Demo.mountain_view) DemoShell.fresh))
     = Raise RequestException.
Proof.
  intros told. split; [|split].
  - refine (proj1 (change_dates_start_rejected
                     Demo.archive_steady (DemoShell.keys ["2020-13-01"])
                     Demo.mountain_view DemoShell.fresh (e1 := KeyError) _)
                  [Demo.day "2020-01-01" 30] _); evaluate.
  - refine (proj1 (proj2 (change_dates_start_rejected
                            Demo.archive_rejecting
                            (DemoShell.keys ["2020-13-01"])
                            Demo.mountain_view DemoShell.fresh
                            (e1 := KeyError) _)) _); evaluate.
  - refine (f_equal (fun r => fst (fst r))
              (proj2 (proj2 (change_dates_start_rejected
                               Demo.archive_down
                               (DemoShell.keys ["2020-13-01"])
                               Demo.mountain_view DemoShell.fresh
                               (e1 := RequestException) _))
                     RequestException _ _));
      try evaluate. discriminate.
Defined.

Lemma change_dates_end_rejected_witness :
  change_dates Demo.archive_steady
               (DemoShell.keys ["2020-01-01"; "2020-01-32"])
               (Some Demo.mountain_view) DemoShell.fresh
  = (Ok tt, Some Demo.mountain_view,
     {| typed := 2; requested := 3;
        shown := [prompt "Please enter a new start date (YYYY-MM-DD): ";
                  prompt "Please enter a new end date (YYYY-MM-DD): ";
                  end_not_changed] |}).
Proof.
  refine (proj1 (change_dates_end_rejected
                   Demo.archive_steady
                   (DemoShell.keys ["2020-01-01"; "2020-01-32"])
                   Demo.mountain_view DemoShell.fresh
                   (first := [Demo.day "2020-01-01" 30])
                   (reloaded := [Demo.day "2020-01-01" 30])
                   (e := KeyError) _ _ _)); evaluate.
Defined.

Lemma change_dates_changes_both_witness :
  change_dates Demo.archive_two_days
               (DemoShell.keys ["2020-01-01"; "2020-01-02"])
               (Some Demo.mountain_view) DemoShell.fresh
  = (Ok tt,
     Some {| _zip_code := "94041"; _start := "2020-01-01";
             _end := "2020-01-02"; _lat := 37.5%float;
             _lon := (-122)%float; _loc_name := SStr "Mountain View";
             _temp_list := [Demo.day "2020-01-01" 10;
                            Demo.day "2020-01-02" 20] |},
     {| typed := 2; requested := 2;
        shown := [prompt "Please enter a new start date (YYYY-MM-DD): ";
                  prompt "Please enter a new end date (YYYY-MM-DD): "] |}).
Proof.
  refine (proj1 (change_dates_changes_both
                   Demo.archive_two_days
                   (DemoShell.keys ["2020-01-01"; "2020-01-02"])
                   Demo.mountain_view DemoShell.fresh
                   (first := [Demo.day "2020-01-01" 10;
                              Demo.day "2020-01-02" 20])
                   (second := [Demo.day "2020-01-01" 10;
                               Demo.day "2020-01-02" 20]) _ _)); evaluate.
Defined.

(** ** The menu *)

Lemma menu_body_rejects_witness :
  fst (menu_body Demo.archive_steady Demo.geocoder (DemoShell.keys ["abc"])
                 DemoShell.float_of DemoShell.int_of
                 (Some Demo.mountain_view) None DemoShell.fresh)
  = Ok (Continue, (Some Demo.mountain_view, None))
  /\ menu_body Demo.archive_steady Demo.geocoder (DemoShell.keys ["01"])
               DemoShell.float_of DemoShell.int_of None None DemoShell.fresh
     = (Ok (Continue, (None, None)),
        {| typed := 1; requested := 0;
           shown := (menu_lines None None
                     ++ [prompt "What is your choice? ";
                         [Text "That wasn't a valid selection"]])%list |}).
Proof.
  split.
  - refine (f_equal fst
              (proj1 (menu_body_rejects
                        Demo.archive_steady Demo.geocoder
                        (DemoShell.keys ["abc"])
                        DemoShell.float_of DemoShell.int_of
                        (Some Demo.mountain_view) None DemoShell.fresh) _));
      evaluate.
  - refine (proj2 (menu_body_rejects
                     Demo.archive_steady Demo.geocoder
                     (DemoShell.keys ["01"])
                     DemoShell.float_of DemoShell.int_of
                     None None DemoShell.fresh) _ _);
      [vm_compute; discriminate | evaluate].
Defined.

Lemma menu_failed_load_empties_slot_witness :
  fst (menu_body Demo.archive_steady Demo.geocoder
                 (DemoShell.keys ["1"; "00000"])
                 DemoShell.float_of DemoShell.int_of
                 (Some Demo.mountain_view) (Some Demo.palo_alto)
                 DemoShell.fresh)
  = Ok (Continue, (None, Some Demo.palo_alto)).
Proof.
  refine (f_equal fst
            (proj1 (menu_failed_load_empties_slot
                      Demo.archive_steady Demo.geocoder
                      (DemoShell.keys ["1"; "00000"])
                      DemoShell.float_of DemoShell.int_of
                      (Some Demo.mountain_view) (Some Demo.palo_alto)
                      DemoShell.fresh _ _ _) _));
    try evaluate. vm_compute; discriminate.
Defined.

Lemma menu_ends_on_load_failure_witness :
  menu_loop Demo.archive_down Demo.geocoder (DemoShell.keys ["1"; "94041"])
            DemoShell.float_of DemoShell.int_of 5 None None DemoShell.fresh
  = Some (Raise RequestException,
          {| typed := 2; requested := 1;
             shown := (menu_lines None None
                       ++ [prompt "What is your choice? ";
                           prompt "Please enter a zipcode "])%list |}).
Proof.
  refine (menu_ends_on_load_failure
            Demo.archive_down Demo.geocoder (DemoShell.keys ["1"; "94041"])
            DemoShell.float_of DemoShell.int_of None None DemoShell.fresh
            (lat := 37.5%float) (lon := (-122)%float)
            (name := SStr "Mountain View") (e := RequestException) 4
            _ _ _ _ _ _).
  - left; reflexivity.
  - vm_compute; discriminate.
  - evaluate.
  - evaluate.
  - evaluate.
  - discriminate.
Defined.

Lemma main_greets_and_quits_witness :
  exists between : list (line (num := float)),
    main Demo.archive_steady Demo.geocoder
         (DemoShell.keys ["Ada"; "abc"; "10"; "9"])
         DemoShell.float_of DemoShell.int_of 3 DemoShell.fresh
    = Some (Ok tt,
            {| typed := 4; requested := 0;
               shown := ([prompt "Please enter your name: ";
                          [Text "Hi "; Value (SStr "Ada");
                           Text ", let's explore some historical temperatures."]]
                         ++ menu_lines None None ++ between
                         ++ [goodbye])%list |}).
Proof.
  refine (main_greets_and_quits
            Demo.archive_steady Demo.geocoder
            (DemoShell.keys ["Ada"; "abc"; "10"; "9"])
            DemoShell.float_of DemoShell.int_of (k := 2) DemoShell.fresh
            (passes := 3) _ _ _ _).
  - intros i Hi. destruct i as [|[|i]]; [left | right | lia]; reflexivity.
  - reflexivity.
  - vm_compute; discriminate.
  - lia.
Defined.

(** ** Comparing *)

Lemma compare_average_temps_reloads_both_witness :
  let c := Demo.shell (Some Demo.mountain_view) (Some Demo.palo_alto) in
  let c' := snd (compare_average_temps Demo.archive_two_days c) in
  dataset_one c'
  = Some (set_temp_list [Demo.day "2020-01-01" 10; Demo.day "2020-01-02" 20]
                        Demo.mountain_view)
  /\ dataset_two c'
     = Some (set_temp_list [Demo.day "2020-01-01" 10; Demo.day "2020-01-02" 20]
                           Demo.palo_alto)
  /\ requests c' = 2.
Proof.
  intros c c'.
  destruct (compare_average_temps_reloads_both
              Demo.archive_two_days c
              (one := Demo.mountain_view) (two := Demo.palo_alto)
              (l1 := [Demo.day "2020-01-01" 10; Demo.day "2020-01-02" 20])
              (l2 := [Demo.day "2020-01-01" 10; Demo.day "2020-01-02" 20])
              eq_refl eq_refl eq_refl eq_refl eq_refl
              ltac:(discriminate) eq_refl ltac:(discriminate))
    as (_ & Hone & Htwo & Hsent & _).
  split; [exact Hone|]. split; [exact Htwo | exact Hsent].
Defined.

Lemma compare_average_temps_failure_witness :
  let c := Demo.shell (Some Demo.mountain_view) (Some Demo.palo_alto) in
  compare_average_temps Demo.archive_down c
  = (Raise RequestException,
     {| dataset_one := Some Demo.mountain_view;
        dataset_two := Some Demo.palo_alto;
        requests := 1; printed := [] |})
  /\ compare_average_temps Demo.archive_lost c
     = (Raise RequestException,
        {| dataset_one := Some Demo.mountain_view;
           dataset_two := Some Demo.palo_alto;
           requests := 2; printed := [] |}).
Proof.
  intros c.
  destruct (compare_average_temps_failure Demo.archive_down c
              (one := Demo.mountain_view) (two := Demo.palo_alto)
              eq_refl eq_refl) as [Hfirst _].
  destruct (compare_average_temps_failure Demo.archive_lost c
              (one := Demo.mountain_view) (two := Demo.palo_alto)
              eq_refl eq_refl) as [_ Hsecond].
  split.
  - refine (Hfirst RequestException _); evaluate.
  - refine (Hsecond [Demo.day "2020-01-01" 30] RequestException _ _ _ _);
      try evaluate. discriminate.
Defined.
